(** * gosqlite: transactions, driver adapter and cancellation hook

    A shallow embedding of the parts of [sqlite.go] and [driver.go] that
    carry the transaction manager, the [database/sql/driver] adapter and the
    progress (cancellation) hook.

    The SQLite engine is reached through cgo.  It is modelled here as a
    deterministic oracle: the answer of a native call is a function of the
    native calls made before it.  The calls are recorded, so that "which
    statements reached the engine" is a property of the final state. *)

From Stdlib Require Import ZArith String List Bool Lia DecimalString.
From stdpp Require Import base list.
Import ListNotations.

Local Open Scope string_scope.
Local Open Scope Z_scope.

(** ** Go values *)

(** [strconv.Itoa] and the [%d] verb of [fmt]. *)
Definition Itoa (n : Z) : string := NilZero.string_of_int (Z.to_int n).

(** [uint8] arithmetic wraps around. *)
Definition uint8 (n : Z) : Z := n mod 256.

(** [interface{}] values bound to statement parameters. *)
Inductive Value : Type :=
| VNil
| VInt (n : Z)
| VText (t : string)
| VBool (b : bool).

(** [driver.NamedValue]. *)
Record NamedValue : Type := mkNamedValue {
  Name : string;
  Ordinal : Z;
  NValue : Value
}.

(** A [context.Context] is identified by a number; what its [Done()] channel
    looks like at a given moment is part of the state.  Nothing is ever sent
    on a Done channel: it is nil (a context that is never cancelled), open,
    or closed. *)
Definition Context : Type := nat.

Inductive DoneChan : Type :=
| chan_nil
| chan_open
| chan_closed.

(** The [interface{}] handed to a progress callback. *)
Inductive payload : Type :=
| PNil
| PContext (ctx : Context)
| PValue (v : Value).

(** Passing a [context.Context] (possibly nil) where [interface{}] is
    expected. *)
Definition payload_of_ctx (ctx : option Context) : payload :=
  match ctx with
  | Some k => PContext k
  | None => PNil
  end.

(** ** Errors *)

(** [ConnError]; the back-reference to the connection is left out. *)
Record ConnError : Type := mkConnError {
  code : Z;
  msg : string;
  details : string
}.

(** An [error] interface value, by dynamic type.  [ConnError] has value
    receivers, so both [ConnError] and [*ConnError] implement [error]; a type
    assertion tells them apart. *)
Inductive error : Type :=
| errorString (text : string)      (* errors.New, fmt.Errorf *)
| ConnErrorVal (e : ConnError)       (* dynamic type ConnError *)
| ConnErrorPtr (e : ConnError)       (* dynamic type *ConnError *)
| ErrBadConn                         (* driver.ErrBadConn *)
| EOF.                               (* io.EOF *)

Definition SQLITE_OK : Z := 0.
Definition SQLITE_BUSY : Z := 5.
Definition SQLITE_MISUSE : Z := 21.
Definition ErrSpecific : Z := -1.

(** ** The native side *)

(** Address of a [C.sqlite3] / [C.sqlite3_stmt]. *)
Definition sqlite3 : Type := positive.
Definition sqlite3_stmt : Type := Z.

Inductive NativeCall : Type :=
| sqlite3_exec (h : option sqlite3) (sql : string)
| sqlite3_errmsg (h : option sqlite3)
| sqlite3_get_autocommit (h : option sqlite3)
| sqlite3_changes (h : option sqlite3)
| sqlite3_last_insert_rowid (h : option sqlite3)
| sqlite3_close (h : option sqlite3)
| sqlite3_next_stmt (h : option sqlite3)
| sqlite3_stmt_busy (st : sqlite3_stmt)
| sqlite3_sql (st : sqlite3_stmt)
| sqlite3_finalize (st : sqlite3_stmt)
| sqlite3_progress_handler (h : option sqlite3) (numOps : Z) (installed : bool)
| sqlite3_bind (st : positive) (index : Z) (v : Value)
| sqlite3_log (rc : Z) (text : string).

(** The engine: what a native call answers after a given history of calls
    (oldest first).  [sqlite3_errstr] is a pure table lookup. *)
Class Engine : Type := {
  engine_int : list NativeCall -> NativeCall -> Z;
  engine_str : list NativeCall -> NativeCall -> string;
  sqlite3_errstr : Z -> string
}.

(** ** The Go side *)

(** [sqliteProgressHandler]: the registered callback and its argument. *)
Record sqliteProgressHandler : Type := mkProgress {
  ph_f : (Context -> DoneChan) -> payload -> bool;
  ph_udp : payload
}.

(** [Conn]: the fields the functions below read or write. *)
Record Conn : Type := mkConn {
  db : option sqlite3;
  c_progressHandler : option sqliteProgressHandler;
  nTransaction : Z
}.

(** [*Stmt], declared in a file of the package that is not at hand. *)
Definition Stmt : Type := positive.

(** [stmt] of the driver adapter. *)
Record stmt : Type := mkStmt {
  s : Stmt;
  rowsRef : bool;
  pendingClose : bool
}.

(** [rowsImpl]; [r_s] points into the store of driver statements. *)
Record rowsImpl : Type := mkRows {
  r_s : nat;
  columnNames : option (list string);
  r_ctx : option Context
}.

(** [result]. *)
Record result : Type := mkResult {
  id : Z;
  rows : Z
}.

(** The state a call runs in: the [*Conn] at hand ([None] is the nil
    pointer), the driver statements allocated so far (a [*stmt] is a
    position in the list), the Done channels of the contexts, and the native
    calls made so far. *)
Record State : Type := mkState {
  conn : option Conn;
  stmts : list stmt;
  done : Context -> DoneChan;
  calls : list NativeCall
}.

Definition set_conn (c : option Conn) (st : State) : State :=
  mkState c (stmts st) (done st) (calls st).
Definition set_stmts (l : list stmt) (st : State) : State :=
  mkState (conn st) l (done st) (calls st).
Definition set_calls (k : list NativeCall) (st : State) : State :=
  mkState (conn st) (stmts st) (done st) k.

Definition set_db (h : option sqlite3) (c : Conn) : Conn :=
  mkConn h (c_progressHandler c) (nTransaction c).
Definition set_progressHandler (p : option sqliteProgressHandler) (c : Conn) : Conn :=
  mkConn (db c) p (nTransaction c).
Definition set_nTransaction (n : Z) (c : Conn) : Conn :=
  mkConn (db c) (c_progressHandler c) n.

(** ** Calls that return or panic *)

Inductive outcome (A : Type) : Type :=
| Ret (a : A) (st : State)
| Panic (v : string) (st : State).
Arguments Ret {A} a st.
Arguments Panic {A} v st.

Definition M (A : Type) : Type := State -> outcome A.

Definition ret {A} (a : A) : M A := fun st => Ret a st.
Definition panic {A} (v : string) : M A := fun st => Panic v st.
Definition bind {A B} (m : M A) (k : A -> M B) : M B :=
  fun st =>
    match m st with
    | Ret a st' => k a st'
    | Panic v st' => Panic v st'
    end.

Notation "'let*' x ':=' m 'in' k" := (bind m (fun x => k))
  (at level 10, x pattern, m at level 100, k at level 200).
Notation "'run' m 'in' k" := (bind m (fun _ => k))
  (at level 10, m at level 100, k at level 200).

Definition state_of {A} (o : outcome A) : State :=
  match o with
  | Ret _ st => st
  | Panic _ st => st
  end.

Definition returned {A} (o : outcome A) : bool :=
  match o with
  | Ret _ _ => true
  | Panic _ _ => false
  end.

(** [defer d] around [body], where the deferred closure [d] reads local
    variables that [body] assigns: [d] gets [Some a] when [body] returned
    [a] and [None] when it panicked.  The result of the function was
    evaluated before [d] runs; a panic keeps unwinding after [d], and a
    panic in [d] takes its place. *)
Definition defer {A} (d : option A -> M unit) (body : M A) : M A :=
  fun st =>
    match body st with
    | Ret a st1 =>
        match d (Some a) st1 with
        | Ret _ st2 => Ret a st2
        | Panic v st2 => Panic v st2
        end
    | Panic v st1 =>
        match d None st1 with
        | Ret _ st2 => Panic v st2
        | Panic v' st2 => Panic v' st2
        end
    end.

Definition nil_dereference : string :=
  "runtime error: invalid memory address or nil pointer dereference".

(** Reading a field through the [*Conn]. *)
Definition deref : M Conn :=
  fun st =>
    match conn st with
    | Some c => Ret c st
    | None => Panic nil_dereference st
    end.

Definition modify_conn (f : Conn -> Conn) : M unit :=
  let* c := deref in fun st => Ret tt (set_conn (Some (f c)) st).

(** ** Functions of the package that are declared in other files *)

(** Only their signatures are known here.  [Mprintf] formats through
    [sqlite3_mprintf]; [SetQueryOnly] is the [query_only] pragma setter;
    [stmtCache_flush] empties the statement cache; the [Stmt_] entries are
    the methods of [*Stmt] used by the adapter.  [Conn_Exec] is the
    parameterised statement loop of [sqlite.go], which runs entirely over
    the missing [prepare] and [Stmt.Exec]. *)
Class Package : Type := {
  Mprintf : string -> string -> string;
  SetQueryOnly : string -> bool -> M (option error);
  stmtCache_flush : M unit;
  Conn_Prepare : string -> list Value -> M (Stmt * option error);
  Conn_Exec : string -> list Value -> M (option error);
  Stmt_exec : Stmt -> M (option error);
  Stmt_Next : Stmt -> M (bool * option error);
  Stmt_ScanValue : Stmt -> Z -> bool -> M (Value * bool);
  Stmt_BindByIndex : Stmt -> Z -> Value -> M (option error);
  Stmt_BindParameterIndex : Stmt -> string -> M (Z * option error);
  Stmt_ExecDml : Stmt -> list Value -> M (Z * option error);
  Stmt_Finalize : Stmt -> M (option error)
}.

Section Sqlite.

Context {engine : Engine} {package : Package}.

(** A native call: the engine answers from the history, and the call is
    appended to it. *)
Definition native (k : NativeCall) : M Z :=
  fun st => Ret (engine_int (calls st) k) (set_calls (calls st ++ [k])%list st).

Definition native_str (k : NativeCall) : M string :=
  fun st => Ret (engine_str (calls st) k) (set_calls (calls st ++ [k])%list st).

(** *** sqlite.go *)

(** [Errno.Error]. *)
Definition Errno_Error (e : Z) : string :=
  let text := if e =? ErrSpecific then "wrapper specific error"
              else sqlite3_errstr e in
  if String.eqb text EmptyString then "errno " ++ Itoa e else text.

(** [ConnError.Error]. *)
Definition ConnError_Error (e : ConnError) : string :=
  if 0 <? Z.of_nat (String.length (details e)) then
    msg e ++ " (" ++ details e ++ ") (" ++ Errno_Error (code e) ++ ")"
  else if 0 <? Z.of_nat (String.length (msg e)) then
    msg e ++ " (" ++ Errno_Error (code e) ++ ")"
  else Errno_Error (code e).

(** The [Error()] method of an [error] value. *)
Definition error_Error (e : error) : string :=
  match e with
  | errorString text => text
  | ConnErrorVal ce | ConnErrorPtr ce => ConnError_Error ce
  | ErrBadConn => "driver: bad connection"
  | EOF => "EOF"
  end.

(** [Conn.error]: defined on the nil receiver. *)
Definition Conn_error (rv : Z) (dets : list string) : M (option error) :=
  fun st =>
    match conn st with
    | None => Ret (Some (errorString "nil sqlite database")) st
    | Some c =>
        if rv =? SQLITE_OK then Ret None st
        else
          (let* text := native_str (sqlite3_errmsg (db c)) in
           ret (Some (ConnErrorVal
                  (mkConnError rv text (match dets with d :: _ => d | [] => EmptyString end)))))
            st
    end.

(** Modelled from the spec: [Log], declared in a file that is not at hand;
    failures are "logged but not propagated".  The code and the message are
    handed to the engine's log, and nothing is returned. *)
Definition Log (rc : Z) (text : string) : M unit :=
  run native (sqlite3_log rc text) in ret tt.

(** [Conn.FastExec]. *)
Definition Conn_FastExec (sql : string) : M (option error) :=
  let* c := deref in
  let* rv := native (sqlite3_exec (db c) sql) in
  Conn_error rv [].

(** [Conn.Changes], [Conn.LastInsertRowid], [Conn.GetAutocommit]. *)
Definition Conn_Changes : M Z :=
  let* c := deref in native (sqlite3_changes (db c)).

Definition Conn_LastInsertRowid : M Z :=
  let* c := deref in native (sqlite3_last_insert_rowid (db c)).

Definition Conn_GetAutocommit : M bool :=
  let* c := deref in
  let* a := native (sqlite3_get_autocommit (db c)) in
  ret (negb (a =? 0)).

(** [TransactionType] is a [uint8]. *)
Definition TransactionType : Type := Z.
Definition Deferred : TransactionType := 0.
Definition Immediate : TransactionType := 1.
Definition Exclusive : TransactionType := 2.

(** The [%#v] verb on an unsigned integer: hexadecimal with a [0x] prefix. *)
Definition hex_digit (n : Z) : string :=
  String.substring (Z.to_nat n) 1 "0123456789abcdef".

Definition sharp_v (t : Z) : string :=
  "0x" ++ (if t <? 16 then hex_digit t else hex_digit (t / 16) ++ hex_digit (t mod 16)).

(** [Conn.BeginTransaction]. *)
Definition Conn_BeginTransaction (t : TransactionType) : M (option error) :=
  if t =? Deferred then Conn_FastExec "BEGIN"
  else if t =? Immediate then Conn_FastExec "BEGIN IMMEDIATE"
  else if t =? Exclusive then Conn_FastExec "BEGIN EXCLUSIVE"
  else panic ("Unsupported transaction type: '" ++ sharp_v t ++ "'").

(** [Conn.Begin]. *)
Definition Conn_Begin : M (option error) := Conn_BeginTransaction Deferred.

(** [Conn.Rollback]. *)
Definition Conn_Rollback : M (option error) := Conn_FastExec "ROLLBACK".

(** [Conn.Commit]. *)
Definition Conn_Commit : M (option error) :=
  let* err := Conn_FastExec "COMMIT" in
  match err with
  | Some _ =>
      let* auto := Conn_GetAutocommit in
      if negb auto then run Conn_Rollback in ret err else ret err
  | None => ret err
  end.

(** [Conn.Savepoint], [Conn.ReleaseSavepoint], [Conn.RollbackSavepoint]. *)
Definition Conn_Savepoint (name : string) : M (option error) :=
  Conn_FastExec (Mprintf "SAVEPOINT %Q" name).

Definition Conn_ReleaseSavepoint (name : string) : M (option error) :=
  Conn_FastExec (Mprintf "RELEASE %Q" name).

Definition Conn_RollbackSavepoint (name : string) : M (option error) :=
  Conn_FastExec (Mprintf "ROLLBACK TO SAVEPOINT %Q" name).

(** The deferred closure of [Conn.Transaction].  [err] is a local variable
    of [Transaction] and the result is not
    named: the deferred closure sees what the body returned (or nil, when
    the body panicked before the assignment), and what it assigns to [err]
    afterwards is not returned. *)
Definition Conn_Transaction_deferred (err : option error) : M unit :=
  run modify_conn (fun c => set_nTransaction (uint8 (nTransaction c - 1)) c) in
  let* c := deref in
  match err with
  | Some e =>
      let ko := match e with ConnErrorPtr _ => true | _ => false end in
      if (nTransaction c =? 0) || ko then run Conn_Rollback in ret tt
      else
        let* rerr := Conn_RollbackSavepoint (Itoa (nTransaction c)) in
        match rerr with
        | Some re => Log (-1) (error_Error re)
        | None =>
            let* rerr' := Conn_ReleaseSavepoint (Itoa (nTransaction c)) in
            match rerr' with
            | Some re => Log (-1) (error_Error re)
            | None => ret tt
            end
        end
  | None =>
      let* err' := (if nTransaction c =? 0 then Conn_Commit
                    else Conn_ReleaseSavepoint (Itoa (nTransaction c))) in
      match err' with
      | Some _ => run Conn_Rollback in ret tt
      | None => ret tt
      end
  end.

(** [Conn.Transaction]: the opening statement, the increment, and the body
    under the deferred closure. *)
Definition Conn_Transaction (t : TransactionType) (f : M (option error)) : M (option error) :=
  let* c := deref in
  let* err := (if nTransaction c =? 0 then Conn_BeginTransaction t
               else Conn_Savepoint (Itoa (nTransaction c))) in
  match err with
  | Some _ => ret err
  | None =>
      run modify_conn (fun c => set_nTransaction (uint8 (nTransaction c + 1)) c) in
      defer (fun r => Conn_Transaction_deferred (match r with Some e => e | None => None end)) f
  end.

(** [Conn.ExecDml] and [Conn.Insert]. *)
Definition Conn_ExecDml (cmd : string) (args : list Value) : M (Z * option error) :=
  let* (x, err) := Conn_Prepare cmd [] in
  match err with
  | Some _ => ret (-1, err)
  | None => defer (fun _ => run Stmt_Finalize x in ret tt) (Stmt_ExecDml x args)
  end.

Definition Conn_Insert (cmd : string) (args : list Value) : M (Z * option error) :=
  let* (n, err) := Conn_ExecDml cmd args in
  match err with
  | Some _ => ret (-1, err)
  | None =>
      if n =? 0 then ret (-1, None)
      else let* rowid := Conn_LastInsertRowid in ret (rowid, None)
  end.

(** [Conn.IsClosed]: defined on the nil receiver. *)
Definition Conn_IsClosed (st : State) : bool :=
  match conn st with
  | None => true
  | Some c => match db c with None => true | Some _ => false end
  end.

Definition dquote : string := String (Ascii.ascii_of_nat 34) EmptyString.

(** The loop of [Conn.Close] over the statements still open on the handle:
    [st] is the statement [sqlite3_next_stmt] gave last (0 is the null
    pointer).  Whether the loop ends is up to the engine; the result is
    [false] when it has not ended after [fuel] rounds. *)
Fixpoint Conn_Close_dangling (fuel : nat) (st : sqlite3_stmt) : M bool :=
  if st =? 0 then ret true
  else
    match fuel with
    | O => ret false
    | S fuel' =>
        let* busy := native (sqlite3_stmt_busy st) in
        let* sql := native_str (sqlite3_sql st) in
        run (if negb (busy =? 0)
             then Log SQLITE_MISUSE ("Dangling statement (not reset): " ++ dquote ++ sql ++ dquote)
             else Log SQLITE_MISUSE ("Dangling statement (not finalize): " ++ dquote ++ sql ++ dquote)) in
        run native (sqlite3_finalize st) in
        let* c := deref in
        let* next := native (sqlite3_next_stmt (db c)) in
        Conn_Close_dangling fuel' next
    end.

(** [Conn.Close].  The result is [None] when the loop over the dangling
    statements has not ended within [fuel] rounds. *)
Definition Conn_Close (fuel : nat) : M (option (option error)) :=
  fun st =>
    match conn st with
    | None => Ret (Some (Some (errorString "nil sqlite database"))) st
    | Some c0 =>
        match db c0 with
        | None => Ret (Some None) st
        | Some _ =>
            (run stmtCache_flush in
             let* c := deref in
             let* rv := native (sqlite3_close (db c)) in
             let* last :=
               (if Z.land rv 255 =? SQLITE_BUSY then
                  let* c := deref in
                  let* first := native (sqlite3_next_stmt (db c)) in
                  let* ended := Conn_Close_dangling fuel first in
                  if ended then
                    let* c := deref in
                    let* rv' := native (sqlite3_close (db c)) in
                    ret (Some rv')
                  else ret None
                else ret (Some rv)) in
             match last with
             | None => ret None
             | Some rv' =>
                 if negb (rv' =? SQLITE_OK) then
                   run Log rv' "error while closing Conn" in
                   let* err := Conn_error rv' ["Conn.Close"] in
                   ret (Some err)
                 else
                   run modify_conn (set_db None) in
                   ret (Some None)
             end) st
        end
    end.

(** Modelled from the spec: [Conn.ProgressHandler], declared in a file that
    is not at hand.  A connection holds at most one progress hook; a
    registration replaces the previous one, and registering no callback
    resets the hook to none.  The engine is told in both cases. *)
Definition Conn_ProgressHandler
    (f : option ((Context -> DoneChan) -> payload -> bool))
    (numOps : Z) (arg : payload) : M unit :=
  let* c := deref in
  match f with
  | None =>
      run modify_conn (set_progressHandler None) in
      run native (sqlite3_progress_handler (db c) 0 false) in
      ret tt
  | Some g =>
      run modify_conn (set_progressHandler (Some (mkProgress g arg))) in
      run native (sqlite3_progress_handler (db c) numOps true) in
      ret tt
  end.

(** *** driver.go *)

(** [Conn.result]. *)
Definition Conn_result : M result :=
  let* rowid := Conn_LastInsertRowid in
  let* n := Conn_Changes in
  ret (mkResult rowid n).

(** [&stmt{...}]: a new driver statement, at the end of the store. *)
Definition new_stmt (x : stmt) : M nat :=
  fun st => Ret (length (stmts st)) (set_stmts (stmts st ++ [x])%list st).

(** Reading and writing through a [*stmt]. *)
Definition stmt_deref (p : nat) : M stmt :=
  fun st =>
    match stmts st !! p with
    | Some x => Ret x st
    | None => Panic nil_dereference st
    end.

Definition stmt_set_rowsRef (p : nat) (b : bool) : M unit :=
  let* x := stmt_deref p in
  fun st => Ret tt (set_stmts (<[p := mkStmt (s x) b (pendingClose x)]> (stmts st)) st).

(** [progressHandler]: the [select] takes the receive when the Done channel
    is closed, and the [default] branch when the channel is open or nil. *)
Definition progressHandler (chans : Context -> DoneChan) (p : payload) : bool :=
  match p with
  | PContext ctx =>
      match chans ctx with
      | chan_closed => true
      | chan_open | chan_nil => false
      end
  | PNil | PValue _ => false
  end.

(** [stmt.bind]; [i] is the index of the first of [args]. *)
Fixpoint stmt_bind_from (p : nat) (i : Z) (args : list Value) : M (option error) :=
  match args with
  | [] => ret None
  | v :: rest =>
      let* x := stmt_deref p in
      let* err := Stmt_BindByIndex (s x) (i + 1) v in
      match err with
      | Some _ => ret err
      | None => stmt_bind_from p (i + 1) rest
      end
  end.

Definition stmt_bind (p : nat) (args : list Value) : M (option error) :=
  stmt_bind_from p 0 args.

(** [stmt.bindNamedValue]. *)
Fixpoint stmt_bindNamedValue (p : nat) (args : list NamedValue) : M (option error) :=
  match args with
  | [] => ret None
  | v :: rest =>
      let* x := stmt_deref p in
      let* err :=
        (if Z.of_nat (String.length (Name v)) =? 0 then
           Stmt_BindByIndex (s x) (Ordinal v) (NValue v)
         else
           let* (index, err) := Stmt_BindParameterIndex (s x) (Name v) in
           match err with
           | Some _ => ret err
           | None => Stmt_BindByIndex (s x) index (NValue v)
           end) in
      match err with
      | Some _ => ret err
      | None => stmt_bindNamedValue p rest
      end
  end.

(** [stmt.Exec]. *)
Definition stmt_Exec (p : nat) (args : list Value) : M (option result * option error) :=
  let* err := stmt_bind p args in
  match err with
  | Some _ => ret (None, err)
  | None =>
      let* x := stmt_deref p in
      let* err := Stmt_exec (s x) in
      match err with
      | Some _ => ret (None, err)
      | None => let* r := Conn_result in ret (Some r, None)
      end
  end.

(** [stmt.Query]. *)
Definition stmt_Query (p : nat) (args : list Value) : M (option rowsImpl * option error) :=
  let* x := stmt_deref p in
  if rowsRef x then
    ret (None, Some (errorString "previously returned Rows still not closed"))
  else
    let* err := stmt_bind p args in
    match err with
    | Some _ => ret (None, err)
    | None =>
        run stmt_set_rowsRef p true in
        ret (Some (mkRows p None None), None)
    end.

(** [stmt.QueryContext]. *)
Definition stmt_QueryContext (p : nat) (ctx : option Context) (args : list NamedValue)
  : M (option rowsImpl * option error) :=
  let* err := stmt_bindNamedValue p args in
  match err with
  | Some _ => ret (None, err)
  | None =>
      run stmt_set_rowsRef p true in
      ret (Some (mkRows p None ctx), None)
  end.

(** [stmt.ExecContext]. *)
Definition stmt_ExecContext (p : nat) (ctx : option Context) (args : list NamedValue)
  : M (option result * option error) :=
  let* err := stmt_bindNamedValue p args in
  match err with
  | Some _ => ret (None, err)
  | None =>
      run stmt_deref p in
      run Conn_ProgressHandler (Some progressHandler) 100 (payload_of_ctx ctx) in
      defer (fun _ => Conn_ProgressHandler None 0 PNil)
        (let* x := stmt_deref p in
         let* err := Stmt_exec (s x) in
         match err with
         | Some _ => ret (None, err)
         | None => let* r := Conn_result in ret (Some r, None)
         end)
  end.

(** The scan loop of [rowsImpl.Next]: [dest[i], _ = ScanValue(i, true)] for
    every index of [dest], from [i] on. *)
Fixpoint scan_from (p : nat) (i : Z) (dest : list Value) : M (list Value) :=
  match dest with
  | [] => ret []
  | _ :: rest =>
      let* x := stmt_deref p in
      let* (v, _) := Stmt_ScanValue (s x) i true in
      let* rest' := scan_from p (i + 1) rest in
      ret (v :: rest')
  end.

(** [rowsImpl.Next]; the result carries the contents of [dest]. *)
Definition rowsImpl_Next_step (r : rowsImpl) (dest : list Value) : M (list Value * option error) :=
  let* x := stmt_deref (r_s r) in
  let* (ok, err) := Stmt_Next (s x) in
  match err with
  | Some _ => ret (dest, err)
  | None =>
      if negb ok then ret (dest, Some EOF)
      else let* dest' := scan_from (r_s r) 0 dest in ret (dest', None)
  end.

Definition rowsImpl_Next (r : rowsImpl) (dest : list Value) : M (list Value * option error) :=
  match r_ctx r with
  | Some _ =>
      run stmt_deref (r_s r) in
      run Conn_ProgressHandler (Some progressHandler) 100 (payload_of_ctx (r_ctx r)) in
      defer (fun _ => Conn_ProgressHandler None 0 PNil) (rowsImpl_Next_step r dest)
  | None => rowsImpl_Next_step r dest
  end.

(** [conn.Exec]. *)
Definition conn_Exec (query : string) (args : list Value) : M (option result * option error) :=
  fun st =>
    if Conn_IsClosed st then Ret (None, Some ErrBadConn) st
    else
      (if Z.of_nat (length args) =? 0 then
         if String.eqb query "unwrap" then
           ret (None, Some (ConnErrorVal (mkConnError 0 EmptyString EmptyString)))
         else
           let* err := Conn_FastExec query in
           match err with
           | Some _ => ret (None, err)
           | None => let* r := Conn_result in ret (Some r, None)
           end
       else
         let* err := Conn_Exec query args in
         match err with
         | Some _ => ret (None, err)
         | None => let* r := Conn_result in ret (Some r, None)
         end) st.

(** [conn.Ping]. *)
Definition conn_Ping (ctx : option Context) : M (option error) :=
  fun st =>
    if Conn_IsClosed st then Ret (Some ErrBadConn) st
    else (let* (_, err) := conn_Exec "PRAGMA schema_verion" [] in ret err) st.

(** [conn.Prepare]: the statement returned is a [*stmt]. *)
Definition conn_Prepare (query : string) : M (option nat * option error) :=
  fun st =>
    if Conn_IsClosed st then Ret (None, Some ErrBadConn) st
    else
      (let* (x, err) := Conn_Prepare query [] in
       match err with
       | Some _ => ret (None, err)
       | None => let* p := new_stmt (mkStmt x false false) in ret (Some p, None)
       end) st.

(** [conn.QueryContext]. *)
Definition conn_QueryContext (ctx : option Context) (query : string) (args : list NamedValue)
  : M (option rowsImpl * option error) :=
  fun st =>
    if Conn_IsClosed st then Ret (None, Some ErrBadConn) st
    else
      (let* (x, err) := Conn_Prepare query [] in
       match err with
       | Some _ => ret (None, err)
       | None =>
           let* p := new_stmt (mkStmt x false false) in
           stmt_QueryContext p ctx args
       end) st.

(** [conn.ExecContext]. *)
Definition conn_ExecContext (ctx : option Context) (query : string) (args : list NamedValue)
  : M (option result * option error) :=
  fun st =>
    if Conn_IsClosed st then Ret (None, Some ErrBadConn) st
    else
      (let* (x, err) := Conn_Prepare query [] in
       match err with
       | Some _ => ret (None, err)
       | None =>
           let* p := new_stmt (mkStmt x false false) in
           stmt_ExecContext p ctx args
       end) st.

(** [conn.Close]. *)
Definition conn_Close (fuel : nat) : M (option (option error)) := Conn_Close fuel.

(** The [driver.Tx] that [Begin] hands out is the [conn] itself. *)
Inductive Tx : Type := the_conn.

(** [conn.Begin]. *)
Definition conn_Begin : M (option Tx * option error) :=
  fun st =>
    if Conn_IsClosed st then Ret (None, Some ErrBadConn) st
    else
      (let* err := Conn_Begin in
       match err with
       | Some _ => ret (None, err)
       | None => ret (Some the_conn, None)
       end) st.

(** [sql.IsolationLevel]. *)
Definition LevelDefault : Z := 0.
Definition LevelReadUncommitted : Z := 1.
Definition LevelReadCommitted : Z := 2.
Definition LevelWriteCommitted : Z := 3.
Definition LevelRepeatableRead : Z := 4.
Definition LevelSnapshot : Z := 5.
Definition LevelSerializable : Z := 6.
Definition LevelLinearizable : Z := 7.

(** [driver.TxOptions]. *)
Record TxOptions : Type := mkTxOptions {
  Isolation : Z;
  ReadOnly : bool
}.

(** [conn.BeginTx]. *)
Definition conn_BeginTx (ctx : option Context) (opts : TxOptions) : M (option Tx * option error) :=
  fun st =>
    if Conn_IsClosed st then Ret (None, Some ErrBadConn) st
    else
      (let* auto := Conn_GetAutocommit in
       if negb auto then
         ret (None, Some (errorString "Nested transcations are not supported"))
       else
         let* err := SetQueryOnly EmptyString (ReadOnly opts) in
         match err with
         | Some _ => ret (None, err)
         | None =>
             if (Isolation opts =? LevelDefault) || (Isolation opts =? LevelSerializable) then
               let* err := Conn_FastExec "PRAGMA read_uncommitted=0" in
               match err with
               | Some _ => ret (None, err)
               | None => conn_Begin
               end
             else if Isolation opts =? LevelReadUncommitted then
               let* err := Conn_FastExec "PRAGMA read_uncommitted=1" in
               match err with
               | Some _ => ret (None, err)
               | None => conn_Begin
               end
             else
               ret (None, Some (errorString
                      ("Isolation level " ++ Itoa (Isolation opts) ++ " is not supported.")))
         end) st.

(** [conn.Commit], [conn.Rollback]. *)
Definition conn_Commit : M (option error) := Conn_Commit.
Definition conn_Rollback : M (option error) := Conn_Rollback.

End Sqlite.

(** ** Observations on the native calls *)

(** The SQL texts handed to [sqlite3_exec], in order. *)
Fixpoint statements (k : list NativeCall) : list string :=
  match k with
  | [] => []
  | sqlite3_exec _ sql :: rest => sql :: statements rest
  | _ :: rest => statements rest
  end.

(** ** Sample engines and a sample package *)

(** An engine that answers [rc] to the statements [failing] picks out and 0
    to everything else; [auto] is its answer to [sqlite3_get_autocommit]. *)
Definition scripted_engine (failing : string -> bool) (rc : Z) (auto : Z) : Engine :=
  {| engine_int := fun _ k =>
       match k with
       | sqlite3_exec _ sql => if failing sql then rc else 0
       | sqlite3_get_autocommit _ => auto
       | _ => 0
       end;
     engine_str := fun _ _ => "engine message";
     sqlite3_errstr := fun _ => "engine error" |}.

(** [%Q] for a format that ends in it and a name without quote characters:
    the name between single quotes. *)
Definition Mprintf_Q (format name : string) : string :=
  String.substring 0 (String.length format - 2) format ++ "'" ++ name ++ "'".

(** A package whose [SetQueryOnly] issues the [query_only] pragma, whose
    [BindByIndex] goes to the engine's bind call, whose cache is empty and
    whose statements do nothing else. *)
Definition sample_package (engine : Engine) : Package :=
  {| Mprintf := Mprintf_Q;
     SetQueryOnly := fun _ on =>
       Conn_FastExec ("PRAGMA query_only=" ++ (if on then "true" else "false"));
     stmtCache_flush := ret tt;
     Conn_Prepare := fun _ _ => ret (1%positive, None);
     Conn_Exec := fun _ _ => ret None;
     Stmt_exec := fun _ => ret None;
     Stmt_Next := fun _ => ret (false, None);
     Stmt_ScanValue := fun _ _ _ => ret (VNil, true);
     Stmt_BindByIndex := fun x i v =>
       let* rc := native (sqlite3_bind x i v) in Conn_error rc [];
     Stmt_BindParameterIndex := fun _ _ => ret (1, None);
     Stmt_ExecDml := fun _ _ => ret (0, None);
     Stmt_Finalize := fun _ => ret None |}.

(** An open connection on handle 1, outside any transaction, with no hook
    and no native call made yet. *)
Definition open_conn (depth : Z) : Conn := mkConn (Some 1%positive) None depth.

Definition fresh_state (depth : Z) : State :=
  mkState (Some (open_conn depth)) [] (fun _ => chan_open) [].

(** An engine that accepts everything and reports autocommit mode. *)
Definition quiet_engine : Engine := scripted_engine (fun _ => false) 0 1.

(** An engine on which COMMIT fails with [SQLITE_BUSY] and the transaction
    stays open. *)
Definition busy_commit_engine : Engine :=
  scripted_engine (String.eqb "COMMIT") SQLITE_BUSY 0.

(** An engine that refuses INSERT statements with [SQLITE_CONSTRAINT] (19)
    and accepts everything else. *)
Definition constraint_engine : Engine :=
  scripted_engine (String.prefix "INSERT") 19 0.

(** A body for [Transaction]: one INSERT through [FastExec]. *)
Definition insert_body : M (option error) :=
  Conn_FastExec (engine := constraint_engine) "INSERT INTO t(v) VALUES(1)".

(** A state with one driver statement, at position 0, whose Rows are still
    open. *)
Definition rows_open_state : State :=
  mkState (Some (open_conn 0)) [mkStmt 1%positive true false] (fun _ => chan_open) [].

(** An engine with one statement (77) left dangling on the handle:
    [sqlite3_close] answers [SQLITE_BUSY] and [sqlite3_next_stmt] answers 77
    until a [sqlite3_finalize] was made. *)
Definition is_finalize (k : NativeCall) : bool :=
  match k with
  | sqlite3_finalize _ => true
  | _ => false
  end.

Definition dangling_engine : Engine :=
  {| engine_int := fun history k =>
       match k with
       | sqlite3_close _ => if existsb is_finalize history then SQLITE_OK else SQLITE_BUSY
       | sqlite3_next_stmt _ => if existsb is_finalize history then 0 else 77
       | sqlite3_get_autocommit _ => 1
       | _ => 0
       end;
     engine_str := fun _ _ => "SELECT 1";
     sqlite3_errstr := fun _ => "engine error" |}.

(** The state after closing the fresh connection on that engine. *)
Definition closed_state : State :=
  state_of (Conn_Close (engine := dangling_engine)
              (package := sample_package dangling_engine) 1 (fresh_state 0)).

(** Cancelling a context closes its Done channel. *)
Definition cancel (ctx : Context) (chans : Context -> DoneChan) : Context -> DoneChan :=
  fun k => if Nat.eqb k ctx then chan_closed else chans k.

(** What a step of the engine does with the hook: it calls the registered
    callback on its argument, and is interrupted (code 9,
    [SQLITE_INTERRUPT]) when the callback asks for it. *)
Definition polled_step : M (option error) :=
  fun st =>
    match conn st with
    | Some c =>
        match c_progressHandler c with
        | Some h =>
            if ph_f h (done st) (ph_udp h)
            then Ret (Some (ConnErrorVal (mkConnError 9 "interrupted" EmptyString))) st
            else Ret None st
        | None => Ret None st
        end
    | None => Ret None st
    end.

(** A package whose statements poll the hook when stepped and do nothing
    else. *)
Definition polling_package : Package :=
  {| Mprintf := Mprintf_Q;
     SetQueryOnly := fun _ _ => ret None;
     stmtCache_flush := ret tt;
     Conn_Prepare := fun _ _ => ret (1%positive, None);
     Conn_Exec := fun _ _ => ret None;
     Stmt_exec := fun _ => polled_step;
     Stmt_Next := fun _ => let* err := polled_step in ret (false, err);
     Stmt_ScanValue := fun _ _ _ => ret (VNil, true);
     Stmt_BindByIndex := fun _ _ _ => ret None;
     Stmt_BindParameterIndex := fun _ _ => ret (1, None);
     Stmt_ExecDml := fun _ _ => ret (0, None);
     Stmt_Finalize := fun _ => ret None |}.

(** A state with one driver statement, at position 0, no Rows open, and
    context 7 cancelled. *)
Definition cancelled_state : State :=
  mkState (Some (open_conn 0)) [mkStmt 1%positive false false]
    (cancel 7%nat (fun _ => chan_open)) [].

(** A call that, on a non-nil connection, returns and leaves the [Conn]
    struct as it was. *)
Definition keeps_conn {A} (m : M A) : Prop :=
  forall st c, conn st = Some c -> exists a st', m st = Ret a st' /\ conn st' = Some c.

(** A call after which the connection is still there with the progress hook
    registration it had, whether the call returned or panicked. *)
Definition keeps_hook {A} (m : M A) : Prop :=
  forall st c, conn st = Some c ->
    exists c', conn (state_of (m st)) = Some c' /\
               c_progressHandler c' = c_progressHandler c.

(** ** Further functions of the two files *)

(** [OpenError]. *)
Record OpenError : Type := mkOpenError {
  Code : Z;
  ExtendedCode : Z;
  Msg : string;
  Filename : string
}.

(** [impl]: the [open] function hands out the connection by leaving it in
    the state; [configure] may be nil. *)
Record impl : Type := mkImpl {
  impl_open : string -> M (option error);
  impl_configure : option (M (option error))
}.

(** The [driver.Conn] that [impl.Open] hands out wraps the connection of the
    state. *)
Inductive DriverConn : Type := conn_wrapper.

Section Further.

Context {engine : Engine} {package : Package}.

(** [Stmt.Reset], declared with the other methods of [*Stmt]. *)
Variable Stmt_Reset : Stmt -> M (option error).

(** [OpenError.Error]. *)
Definition OpenError_Error (e : OpenError) : string :=
  let file := if String.eqb (Filename e) EmptyString then "(temporary)" else Filename e in
  let prefix := file ++ ": open: " in
  let codeErr := Errno_Error (Code e) in
  if 0 <? Z.of_nat (String.length (Msg e)) then
    if negb (String.eqb codeErr (Msg e))
    then (prefix ++ Msg e) ++ " (" ++ codeErr ++ ")"
    else prefix ++ Msg e
  else prefix ++ codeErr.

(** [impl.Open].  The result is [None] when the [Close] after a failed
    [configure] has not ended within [fuel] rounds. *)
Definition impl_Open (d : impl) (fuel : nat) (name : string)
  : M (option (option DriverConn * option error)) :=
  let* err := impl_open d name in
  match err with
  | Some _ => ret (Some (None, err))
  | None =>
      match impl_configure d with
      | Some configure =>
          let* err := configure in
          match err with
          | Some _ =>
              let* closed := Conn_Close fuel in
              match closed with
              | Some _ => ret (Some (None, err))
              | None => ret None
              end
          | None => ret (Some (Some conn_wrapper, None))
          end
      | None => ret (Some (Some conn_wrapper, None))
      end
  end.

Definition stmt_set_pendingClose (p : nat) (b : bool) : M unit :=
  let* x := stmt_deref p in
  fun st => Ret tt (set_stmts (<[p := mkStmt (s x) (rowsRef x) b]> (stmts st)) st).

(** [stmt.Close]. *)
Definition stmt_Close (p : nat) : M (option error) :=
  let* x := stmt_deref p in
  if rowsRef x then
    run stmt_set_pendingClose p true in
    ret None
  else Stmt_Finalize (s x).

(** [rowsImpl.Close]. *)
Definition rowsImpl_Close (r : rowsImpl) : M (option error) :=
  run stmt_set_rowsRef (r_s r) false in
  let* x := stmt_deref (r_s r) in
  if pendingClose x then stmt_Close (r_s r)
  else Stmt_Reset (s x).

End Further.

(** How often [sqlite3_close] was called. *)
Fixpoint close_attempts (k : list NativeCall) : nat :=
  match k with
  | [] => O
  | sqlite3_close _ :: rest => S (close_attempts rest)
  | _ :: rest => close_attempts rest
  end.

(** A call that, on a non-nil connection, returns, leaves the [Conn] struct
    as it was and does not call [sqlite3_close]. *)
Definition no_close {A} (m : M A) : Prop :=
  forall st c, conn st = Some c ->
    exists a st', m st = Ret a st' /\ conn st' = Some c /\
                  close_attempts (calls st') = close_attempts (calls st).

(** An engine on which [sqlite3_close] stays busy although no statement is
    left to finalize. *)
Definition stuck_engine : Engine :=
  {| engine_int := fun _ k =>
       match k with
       | sqlite3_close _ => SQLITE_BUSY
       | _ => 0
       end;
     engine_str := fun _ _ => "unable to close";
     sqlite3_errstr := fun _ => "engine error" |}.

(** A state in which no connection was opened yet. *)
Definition no_conn_state : State :=
  mkState None [] (fun _ => chan_open) [].

(** A driver whose [open] makes the fresh connection and whose [configure]
    fails. *)
Definition failing_configure : impl :=
  {| impl_open := fun _ st => Ret None (set_conn (Some (open_conn 0)) st);
     impl_configure := Some (ret (Some (errorString "configuration failed"))) |}.

(** A package whose statements have a row of fives to give. *)
Definition row_package : Package :=
  {| Mprintf := Mprintf_Q;
     SetQueryOnly := fun _ _ => ret None;
     stmtCache_flush := ret tt;
     Conn_Prepare := fun _ _ => ret (1%positive, None);
     Conn_Exec := fun _ _ => ret None;
     Stmt_exec := fun _ => ret None;
     Stmt_Next := fun _ => ret (true, None);
     Stmt_ScanValue := fun _ _ _ => ret (VInt 5, true);
     Stmt_BindByIndex := fun _ _ _ => ret None;
     Stmt_BindParameterIndex := fun _ _ => ret (1, None);
     Stmt_ExecDml := fun _ _ => ret (0, None);
     Stmt_Finalize := fun _ => ret None |}.

(** A call that, on a non-nil connection, returns and changes nothing but
    the native calls, to which it only adds. *)
Definition appends {A} (m : M A) : Prop :=
  forall st c, conn st = Some c ->
    exists a extra, m st = Ret a (set_calls (calls st ++ extra)%list st).

(** The loop of [rowsImpl.Next] seen from its positions alone: position [i]
    and the [n - 1] after it are each given what [ScanValue] returns for
    them, in order; what [dest] held before plays no part. *)
Fixpoint scanned_positions {package : Package} (p : nat) (i : Z) (n : nat) : M (list Value) :=
  match n with
  | O => ret []
  | S n' =>
      let* x := stmt_deref p in
      let* (v, _) := Stmt_ScanValue (s x) i true in
      let* rest := scanned_positions p (i + 1) n' in
      ret (v :: rest)
  end.

(** ** Properties *)

Section Properties.

Context {engine : Engine} {package : Package}.

Example Itoa_samples : Itoa 0 = "0" /\ Itoa 12 = "12" /\ Itoa (-3) = "-3".
Proof. repeat split. Qed.

Example sharp_v_samples : sharp_v 3 = "0x3" /\ sharp_v 255 = "0xff".
Proof. split; reflexivity. Qed.

Example uint8_samples : uint8 (255 + 1) = 0 /\ uint8 (0 - 1) = 255.
Proof. split; reflexivity. Qed.

Lemma statements_app (k1 k2 : list NativeCall) :
  statements (k1 ++ k2) = (statements k1 ++ statements k2)%list.
Proof.
  induction k1 as [|x k1 IH]; [reflexivity|].
  destruct x; simpl; rewrite IH; reflexivity.
Qed.

(** What [FastExec] does on a non-nil connection: one [sqlite3_exec], and
    one [sqlite3_errmsg] when the answer is not [SQLITE_OK]. *)
Lemma Conn_FastExec_eq (sql : string) (st : State) (c : Conn) :
  conn st = Some c ->
  Conn_FastExec sql st =
    let k := sqlite3_exec (db c) sql in
    let rv := engine_int (calls st) k in
    if rv =? SQLITE_OK then Ret None (set_calls (calls st ++ [k]) st)
    else Ret (Some (ConnErrorVal
                (mkConnError rv
                   (engine_str (calls st ++ [k]) (sqlite3_errmsg (db c)))
                   EmptyString)))
             (set_calls ((calls st ++ [k]) ++ [sqlite3_errmsg (db c)]) st).
Proof.
  intros Hc. unfold Conn_FastExec, deref, bind, native, Conn_error.
  rewrite Hc. cbn. rewrite Hc.
  destruct (engine_int (calls st) (sqlite3_exec (db c) sql) =? SQLITE_OK); reflexivity.
Qed.

(** [FastExec] on a non-nil connection returns, keeps the Go side of the
    state, and sends exactly its statement. *)
Lemma Conn_FastExec_returns (sql : string) (st : State) (c : Conn) :
  conn st = Some c ->
  exists err st',
    Conn_FastExec sql st = Ret err st' /\
    conn st' = Some c /\ stmts st' = stmts st /\ done st' = done st /\
    (exists extra, calls st' = (calls st ++ sqlite3_exec (db c) sql :: extra)%list /\
                   statements extra = []) /\
    statements (calls st') = (statements (calls st) ++ [sql])%list.
Proof.
  intros Hc. rewrite (Conn_FastExec_eq sql st c Hc). cbn zeta.
  destruct (engine_int (calls st) (sqlite3_exec (db c) sql) =? SQLITE_OK).
  - eexists _, _. split; [reflexivity|]. cbn.
    repeat split; try assumption.
    + exists []. split; reflexivity.
    + rewrite statements_app. reflexivity.
  - eexists _, _. split; [reflexivity|]. cbn.
    repeat split; try assumption.
    + exists [sqlite3_errmsg (db c)]. rewrite <- app_assoc. split; reflexivity.
    + rewrite !statements_app. cbn. rewrite app_nil_r. reflexivity.
Qed.

(** *** Calls that leave the [Conn] struct alone *)

Lemma keeps_conn_ret {A} (a : A) : keeps_conn (ret a).
Proof. intros st c Hc. exists a, st. split; [reflexivity | exact Hc]. Qed.

Lemma keeps_conn_bind {A B} (m : M A) (k : A -> M B) :
  keeps_conn m -> (forall a, keeps_conn (k a)) -> keeps_conn (bind m k).
Proof.
  intros Hm Hk st c Hc. unfold bind.
  destruct (Hm st c Hc) as (a & st1 & -> & Hc1).
  exact (Hk a st1 c Hc1).
Qed.

Lemma keeps_conn_native (k : NativeCall) : keeps_conn (native k).
Proof. intros st c Hc. eexists _, _. split; [reflexivity | exact Hc]. Qed.

Lemma keeps_conn_FastExec (sql : string) : keeps_conn (Conn_FastExec sql).
Proof.
  intros st c Hc.
  destruct (Conn_FastExec_returns sql st c Hc) as (err & st' & H & Hc' & _).
  exists err, st'. split; assumption.
Qed.

Lemma keeps_conn_Log (rc : Z) (text : string) : keeps_conn (Log rc text).
Proof.
  unfold Log. apply keeps_conn_bind; [apply keeps_conn_native|].
  intros _. apply keeps_conn_ret.
Qed.

Lemma keeps_conn_GetAutocommit : keeps_conn Conn_GetAutocommit.
Proof.
  intros st c Hc. unfold Conn_GetAutocommit, bind, deref. rewrite Hc.
  eexists _, _. split; [reflexivity | exact Hc].
Qed.

Lemma keeps_conn_Commit : keeps_conn Conn_Commit.
Proof.
  unfold Conn_Commit. apply keeps_conn_bind; [apply keeps_conn_FastExec|].
  intros [e|]; [|apply keeps_conn_ret].
  apply keeps_conn_bind; [apply keeps_conn_GetAutocommit|].
  intros [|]; cbn; [apply keeps_conn_ret|].
  apply keeps_conn_bind; [apply keeps_conn_FastExec|].
  intros _. apply keeps_conn_ret.
Qed.

Lemma keeps_conn_Rollback : keeps_conn Conn_Rollback.
Proof. apply keeps_conn_FastExec. Qed.

Lemma keeps_conn_RollbackSavepoint (name : string) : keeps_conn (Conn_RollbackSavepoint name).
Proof. apply keeps_conn_FastExec. Qed.

Lemma keeps_conn_ReleaseSavepoint (name : string) : keeps_conn (Conn_ReleaseSavepoint name).
Proof. apply keeps_conn_FastExec. Qed.

Create HintDb keeps.
#[local] Hint Resolve keeps_conn_ret keeps_conn_native keeps_conn_FastExec
  keeps_conn_Log keeps_conn_GetAutocommit keeps_conn_Commit keeps_conn_Rollback
  keeps_conn_RollbackSavepoint keeps_conn_ReleaseSavepoint : keeps.

(** The deferred closure of [Transaction] returns, and its only effect on
    the [Conn] struct is to take one off the depth counter. *)
Lemma Transaction_deferred_depth (err : option error) (st : State) (c : Conn) :
  conn st = Some c ->
  exists st',
    Conn_Transaction_deferred err st = Ret tt st' /\
    conn st' = Some (set_nTransaction (uint8 (nTransaction c - 1)) c).
Proof.
  intros Hc. unfold Conn_Transaction_deferred.
  unfold bind at 1. unfold modify_conn, bind, deref. rewrite Hc. cbn.
  set (c' := set_nTransaction _ c). set (st0 := set_conn (Some c') st).
  assert (Hc0 : conn st0 = Some c') by reflexivity.
  assert (K : forall m : M unit, keeps_conn m ->
            exists st', m st0 = Ret tt st' /\ conn st' = Some c').
  { intros m Hm. destruct (Hm st0 c' Hc0) as ([] & st' & H & Hc'). eauto. }
  apply K.
  destruct err as [e|].
  - match goal with |- keeps_conn (if ?b then _ else _) => destruct b end.
    + apply keeps_conn_bind; auto with keeps.
    + apply keeps_conn_bind; [auto with keeps|].
      intros [re|]; [auto with keeps|].
      apply keeps_conn_bind; [auto with keeps|].
      intros [re|]; auto with keeps.
  - apply keeps_conn_bind.
    + match goal with |- keeps_conn (if ?b then _ else _) => destruct b end;
        auto with keeps.
    + intros [e|]; [|auto with keeps].
      apply keeps_conn_bind; auto with keeps.
Qed.

Lemma uint8_succ_pred (n : Z) : 0 <= n < 256 -> uint8 (uint8 (n + 1) - 1) = n.
Proof.
  intros Hn. unfold uint8.
  destruct (Z.eq_dec n 255) as [->|Hne]; [reflexivity|].
  rewrite (Z.mod_small (n + 1)) by lia.
  replace (n + 1 - 1) with n by lia. apply Z.mod_small. lia.
Qed.

(** *** Calls that only add native calls *)

Lemma set_calls_same (st : State) : set_calls (calls st ++ []) st = st.
Proof. destruct st. unfold set_calls. cbn. rewrite app_nil_r. reflexivity. Qed.

Lemma appends_ret {A} (a : A) : appends (ret a).
Proof.
  intros st c Hc. exists a, []. unfold ret. rewrite set_calls_same. reflexivity.
Qed.

Lemma appends_bind {A B} (m : M A) (k : A -> M B) :
  appends m -> (forall a, appends (k a)) -> appends (bind m k).
Proof.
  intros Hm Hk st c Hc. unfold bind.
  destruct (Hm st c Hc) as (a & e1 & ->).
  destruct (Hk a (set_calls (calls st ++ e1) st) c Hc) as (b & e2 & ->).
  exists b, (e1 ++ e2)%list. cbn. unfold set_calls. cbn.
  rewrite app_assoc. reflexivity.
Qed.

Lemma appends_native (k : NativeCall) : appends (native k).
Proof. intros st c Hc. exists (engine_int (calls st) k), [k]. reflexivity. Qed.

Lemma appends_FastExec (sql : string) : appends (Conn_FastExec sql).
Proof.
  intros st c Hc. rewrite (Conn_FastExec_eq sql st c Hc). cbn zeta.
  destruct (engine_int (calls st) (sqlite3_exec (db c) sql) =? SQLITE_OK).
  - eexists _, [_]. reflexivity.
  - eexists _, [_; _]. rewrite <- app_assoc. reflexivity.
Qed.

Lemma appends_Log (rc : Z) (text : string) : appends (Log rc text).
Proof.
  unfold Log. apply appends_bind; [apply appends_native|]. intros _. apply appends_ret.
Qed.

Lemma appends_GetAutocommit : appends Conn_GetAutocommit.
Proof.
  intros st c Hc. unfold Conn_GetAutocommit, bind, deref. rewrite Hc.
  eexists _, [_]. reflexivity.
Qed.

Lemma appends_Commit : appends Conn_Commit.
Proof.
  unfold Conn_Commit. apply appends_bind; [apply appends_FastExec|].
  intros [e|]; [|apply appends_ret].
  apply appends_bind; [apply appends_GetAutocommit|].
  intros [|]; cbn; [apply appends_ret|].
  apply appends_bind; [apply appends_FastExec|]. intros _. apply appends_ret.
Qed.

(** The deferred closure of [Transaction] takes one off the depth counter
    and adds native calls; it changes nothing else. *)
Lemma Transaction_deferred_appends (err : option error) (st : State) (c : Conn) :
  conn st = Some c ->
  exists extra,
    Conn_Transaction_deferred err st =
      Ret tt (set_calls (calls st ++ extra)
                (set_conn (Some (set_nTransaction (uint8 (nTransaction c - 1)) c)) st)).
Proof.
  intros Hc. unfold Conn_Transaction_deferred.
  unfold bind at 1. unfold modify_conn, bind, deref. rewrite Hc. cbn.
  set (c' := set_nTransaction _ c). set (st0 := set_conn (Some c') st).
  assert (K : forall m : M unit, appends m ->
            exists extra, m st0 = Ret tt (set_calls (calls st ++ extra) st0)).
  { intros m Hm. destruct (Hm st0 c' eq_refl) as ([] & extra & H). exists extra. exact H. }
  apply K.
  destruct err as [e|].
  - match goal with |- appends (if ?b then _ else _) => destruct b end.
    + apply appends_bind; [apply appends_FastExec | intros; apply appends_ret].
    + apply appends_bind; [apply appends_FastExec|].
      intros [re|]; [apply appends_Log|].
      apply appends_bind; [apply appends_FastExec|].
      intros [re|]; [apply appends_Log | apply appends_ret].
  - apply appends_bind.
    + match goal with |- appends (if ?b then _ else _) => destruct b end;
        [apply appends_Commit | apply appends_FastExec].
    + intros [e|]; [|apply appends_ret].
      apply appends_bind; [apply appends_FastExec | intros; apply appends_ret].
Qed.

(** The statement that opens a transaction scope: it returns or panics, and
    the [Conn] struct is as before in both cases. *)
Lemma BeginTransaction_conn (t : TransactionType) (st : State) (c : Conn) :
  conn st = Some c -> conn (state_of (Conn_BeginTransaction t st)) = Some c.
Proof.
  intros Hc. unfold Conn_BeginTransaction.
  repeat match goal with |- context [if ?b then _ else _] => destruct b end;
    try match goal with |- context [Conn_FastExec ?q st] =>
          destruct (keeps_conn_FastExec q st c Hc) as (a & st' & -> & H); exact H
        end.
  exact Hc.
Qed.

(** C1: [Conn.Transaction] leaves the depth counter [nTransaction] as it
    found it, whether the body returns nil or an error (or panics) and
    whatever the engine answers to COMMIT, RELEASE or ROLLBACK.  The body is
    only assumed to preserve the counter on connections whose counter is one
    more (modulo 256) than at the call: that is the connection it is run on.
    When the opening BEGIN or SAVEPOINT fails, its error is returned at once
    with the state it left.  When the transaction type is supported (or the
    call is nested) and the body returns, [Transaction] returns.  When the
    opening statement succeeds, the body is run on the state that statement
    left with the counter incremented once (modulo 256) and nothing else
    changed; the final state is the one the body left with the counter
    decremented once (modulo 256) and native calls added by the deferred
    closure, whether the body returned or panicked; and the call returns
    what the body returned, or panics as the body did. *)
Theorem Transaction_restores_depth
    (t : TransactionType) (f : M (option error)) (st : State) (c : Conn) :
  conn st = Some c ->
  0 <= nTransaction c < 256 ->
  (forall st1 c1,
     conn st1 = Some c1 -> nTransaction c1 = uint8 (nTransaction c + 1) ->
     exists c2, conn (state_of (f st1)) = Some c2 /\ nTransaction c2 = nTransaction c1) ->
  (exists c', conn (state_of (Conn_Transaction t f st)) = Some c' /\
              nTransaction c' = nTransaction c) /\
  (forall e st1,
     (if nTransaction c =? 0 then Conn_BeginTransaction t
      else Conn_Savepoint (Itoa (nTransaction c))) st = Ret (Some e) st1 ->
     Conn_Transaction t f st = Ret (Some e) st1) /\
  ((nTransaction c = 0 -> t = Deferred \/ t = Immediate \/ t = Exclusive) ->
   (forall st1, returned (f st1) = true) ->
   returned (Conn_Transaction t f st) = true) /\
  (forall st1,
     (if nTransaction c =? 0 then Conn_BeginTransaction t
      else Conn_Savepoint (Itoa (nTransaction c))) st = Ret None st1 ->
     exists c3 extra,
       conn (state_of
               (f (set_conn (Some (set_nTransaction (uint8 (nTransaction c + 1)) c)) st1)))
         = Some c3 /\
       state_of (Conn_Transaction t f st) =
         set_calls
           (calls (state_of
                     (f (set_conn (Some (set_nTransaction (uint8 (nTransaction c + 1)) c))
                           st1))) ++ extra)
           (set_conn (Some (set_nTransaction (uint8 (nTransaction c3 - 1)) c3))
              (state_of
                 (f (set_conn (Some (set_nTransaction (uint8 (nTransaction c + 1)) c))
                       st1)))) /\
       match f (set_conn (Some (set_nTransaction (uint8 (nTransaction c + 1)) c)) st1) with
       | Ret e _ => exists st4, Conn_Transaction t f st = Ret e st4
       | Panic v _ => exists st4, Conn_Transaction t f st = Panic v st4
       end).
Proof.
  intros Hc Hn Hf.
  set (opening := if nTransaction c =? 0 then Conn_BeginTransaction t
                  else Conn_Savepoint (Itoa (nTransaction c))).
  assert (Hopen : conn (state_of (opening st)) = Some c).
  { subst opening. destruct (nTransaction c =? 0).
    - apply BeginTransaction_conn, Hc.
    - destruct (keeps_conn_FastExec (Mprintf "SAVEPOINT %Q" (Itoa (nTransaction c))) st c Hc)
        as (a & st' & H & Hc'). unfold Conn_Savepoint. rewrite H. exact Hc'. }
  assert (Hunfold : Conn_Transaction t f st =
            match opening st with
            | Ret (Some e) st1 => Ret (Some e) st1
            | Ret None st1 =>
                defer (fun r => Conn_Transaction_deferred
                                  (match r with Some e => e | None => None end)) f
                  (set_conn (Some (set_nTransaction (uint8 (nTransaction c + 1)) c)) st1)
            | Panic v st1 => Panic v st1
            end).
  { unfold Conn_Transaction. unfold bind at 1. unfold deref. rewrite Hc.
    unfold bind at 1. fold opening.
    destruct (opening st) as [[e|] st1|v st1] eqn:Ho; try reflexivity.
    cbn in Hopen. unfold bind, modify_conn, bind, deref. rewrite Hopen. reflexivity. }
  rewrite Hunfold.
  split; [|split; [|split]];
    [| | |intros st1 Ho; rewrite Ho; cbn in Hopen;
          set (c1 := set_nTransaction (uint8 (nTransaction c + 1)) c);
          set (st2 := set_conn (Some c1) st1);
          destruct (Hf st2 c1 eq_refl eq_refl) as (c3 & Hc3 & _);
          unfold defer;
          destruct (f st2) as [r st3|v st3]; cbn in Hc3;
          [destruct (Transaction_deferred_appends r st3 c3 Hc3) as (extra & ->)
          |destruct (Transaction_deferred_appends None st3 c3 Hc3) as (extra & ->)];
          exists c3, extra;
          (split; [exact Hc3|]); (split; [reflexivity|]);
          eexists; reflexivity].
  - destruct (opening st) as [[e|] st1|v st1] eqn:Ho; cbn in Hopen.
    + exists c. split; [exact Hopen | reflexivity].
    + set (c1 := set_nTransaction (uint8 (nTransaction c + 1)) c).
      set (st2 := set_conn (Some c1) st1).
      destruct (Hf st2 c1 eq_refl eq_refl) as (c2 & Hc2 & Hn2).
      unfold defer.
      destruct (f st2) as [r st3|v st3]; cbn in Hc2.
      * destruct (Transaction_deferred_depth r st3 c2 Hc2) as (st4 & -> & Hc4).
        eexists. split; [exact Hc4|]. cbn. rewrite Hn2. apply uint8_succ_pred, Hn.
      * destruct (Transaction_deferred_depth None st3 c2 Hc2) as (st4 & -> & Hc4).
        eexists. split; [exact Hc4|]. cbn. rewrite Hn2. apply uint8_succ_pred, Hn.
    + exists c. split; [exact Hopen | reflexivity].
  - intros e st1 Ho. rewrite Ho. reflexivity.
  - intros Ht Hret.
    assert (Hro : returned (opening st) = true).
    { subst opening. destruct (Z.eqb_spec (nTransaction c) 0) as [Hz|Hz].
      - unfold Conn_BeginTransaction.
        destruct (Ht Hz) as [ -> | [ -> | -> ] ]; cbn;
          match goal with |- returned (Conn_FastExec ?q st) = true =>
            destruct (keeps_conn_FastExec q st c Hc) as (a & st' & -> & _) end;
          reflexivity.
      - unfold Conn_Savepoint.
        match goal with |- returned (Conn_FastExec ?q st) = true =>
          destruct (keeps_conn_FastExec q st c Hc) as (a & st' & -> & _) end.
        reflexivity. }
    destruct (opening st) as [[e|] st1|v st1] eqn:Ho; cbn in Hopen;
      [reflexivity | | discriminate].
    set (c1 := set_nTransaction (uint8 (nTransaction c + 1)) c).
    set (st2 := set_conn (Some c1) st1).
    destruct (Hf st2 c1 eq_refl eq_refl) as (c2 & Hc2 & Hn2).
    specialize (Hret st2). unfold defer.
    destruct (f st2) as [r st3|v st3]; [|discriminate]. cbn in Hc2.
    destruct (Transaction_deferred_depth r st3 c2 Hc2) as (st4 & -> & Hc4).
    reflexivity.
Qed.

(** The error branch of the deferred closure, at depth [d] after the
    decrement: a full ROLLBACK when [d] is 0 or the error is a
    [*ConnError]; otherwise ROLLBACK TO SAVEPOINT, then RELEASE when that
    succeeded, and nothing but logging when either fails. *)
Lemma Transaction_deferred_on_error (e : error) (st : State) (c : Conn) :
  conn st = Some c ->
  let d := uint8 (nTransaction c - 1) in
  exists st',
    Conn_Transaction_deferred (Some e) st = Ret tt st' /\
    statements (calls st') =
      (statements (calls st) ++
       (if (d =? 0) || (match e with ConnErrorPtr _ => true | _ => false end)
        then ["ROLLBACK"]
        else
          Mprintf "ROLLBACK TO SAVEPOINT %Q" (Itoa d) ::
          (if engine_int (calls st)
                (sqlite3_exec (db c) (Mprintf "ROLLBACK TO SAVEPOINT %Q" (Itoa d))) =? SQLITE_OK
           then [Mprintf "RELEASE %Q" (Itoa d)] else [])))%list.
Proof.
  intros Hc d. unfold Conn_Transaction_deferred.
  unfold bind at 1. unfold modify_conn, bind, deref. rewrite Hc. cbn.
  fold d. set (c' := set_nTransaction d c). set (st0 := set_conn (Some c') st).
  assert (Hc0 : conn st0 = Some c') by reflexivity.
  destruct ((d =? 0) || _).
  - unfold Conn_Rollback.
    destruct (Conn_FastExec_returns "ROLLBACK" st0 c' Hc0) as (r & st1 & -> & _ & _ & _ & _ & Hs).
    exists st1. split; [reflexivity | exact Hs].
  - unfold Conn_RollbackSavepoint.
    set (q := Mprintf "ROLLBACK TO SAVEPOINT %Q" (Itoa d)).
    rewrite (Conn_FastExec_eq q st0 c' Hc0). cbn zeta.
    change (db c') with (db c). change (calls st0) with (calls st).
    destruct (engine_int (calls st) (sqlite3_exec (db c) q) =? SQLITE_OK).
    + unfold Conn_ReleaseSavepoint.
      set (st1 := set_calls _ st0).
      destruct (Conn_FastExec_returns (Mprintf "RELEASE %Q" (Itoa d)) st1 c' Hc0)
        as ([re|] & st2 & -> & _ & _ & _ & _ & Hs).
      * eexists. split; [reflexivity|]. cbn. rewrite !statements_app, Hs.
        subst st1. cbn. rewrite !statements_app. cbn.
        rewrite app_nil_r, <- app_assoc. reflexivity.
      * eexists. split; [reflexivity|]. rewrite Hs.
        subst st1. cbn. rewrite !statements_app. cbn. rewrite <- app_assoc. reflexivity.
    + eexists. split; [reflexivity|]. cbn. rewrite !statements_app. cbn.
      rewrite !app_nil_r. reflexivity.
Qed.

(** C3, as amended: on an open connection in autocommit mode, [conn.BeginTx]
    with an isolation level other than default, serializable and
    read-uncommitted first calls [SetQueryOnly] with the read-only option.
    If that fails, its error is returned; otherwise the error names the
    unsupported level.  The state is the one [SetQueryOnly] left: no
    read_uncommitted pragma and no BEGIN is sent. *)
Theorem BeginTx_unsupported_level
    (ctx : option Context) (opts : TxOptions) (st : State) (c : Conn) :
  conn st = Some c ->
  db c <> None ->
  engine_int (calls st) (sqlite3_get_autocommit (db c)) <> 0 ->
  Isolation opts <> LevelDefault ->
  Isolation opts <> LevelSerializable ->
  Isolation opts <> LevelReadUncommitted ->
  conn_BeginTx ctx opts st =
    match SetQueryOnly EmptyString (ReadOnly opts)
            (set_calls (calls st ++ [sqlite3_get_autocommit (db c)]) st) with
    | Ret None st1 =>
        Ret (None, Some (errorString
               ("Isolation level " ++ Itoa (Isolation opts) ++ " is not supported."))) st1
    | Ret (Some e) st1 => Ret (None, Some e) st1
    | Panic v st1 => Panic v st1
    end.
Proof.
  intros Hc Hdb Hauto H0 H6 H1.
  unfold conn_BeginTx, Conn_IsClosed. rewrite Hc.
  destruct (db c) as [h|] eqn:Hh; [|contradiction].
  unfold bind at 1. unfold Conn_GetAutocommit, bind, deref, native. rewrite Hc, Hh. cbn.
  destruct (Z.eqb_spec (engine_int (calls st) (sqlite3_get_autocommit (Some h))) 0);
    [contradiction|]. cbn.
  destruct (SetQueryOnly EmptyString (ReadOnly opts) _) as [[e|] st1|v st1]; try reflexivity.
  destruct (Z.eqb_spec (Isolation opts) LevelDefault); [contradiction|].
  destruct (Z.eqb_spec (Isolation opts) LevelSerializable); [contradiction|].
  destruct (Z.eqb_spec (Isolation opts) LevelReadUncommitted); [contradiction|].
  reflexivity.
Qed.

(** [stmt.Query] on a statement whose Rows are open: the error, and the
    state as it was. *)
Lemma stmt_Query_rows_open (p : nat) (x : stmt) (args : list Value) (st : State) :
  stmts st !! p = Some x ->
  rowsRef x = true ->
  stmt_Query p args st =
    Ret (None, Some (errorString "previously returned Rows still not closed")) st.
Proof.
  intros Hp Hr. unfold stmt_Query, bind, stmt_deref. rewrite Hp, Hr. reflexivity.
Qed.

(** C8: the progress callback asks for an abort exactly when its argument
    is a context whose Done channel is closed at the time of the call.  A
    context not yet cancelled at one poll and cancelled before the next is
    answered false, then true; any other argument is answered false. *)
Theorem progressHandler_aborts_iff_done (chans : Context -> DoneChan) (p : payload) :
  (progressHandler chans p = true <->
   exists ctx, p = PContext ctx /\ chans ctx = chan_closed) /\
  (forall ctx, chans ctx <> chan_closed ->
     progressHandler chans (PContext ctx) = false /\
     progressHandler (cancel ctx chans) (PContext ctx) = true) /\
  (forall v, progressHandler chans (PValue v) = false) /\
  progressHandler chans PNil = false.
Proof.
  repeat split.
  - destruct p as [|ctx|v]; cbn; try discriminate.
    destruct (chans ctx) eqn:Hd; try discriminate. intros _. exists ctx. split; [reflexivity | exact Hd].
  - intros (ctx & -> & Hd). cbn. rewrite Hd. reflexivity.
  - cbn. destruct (chans ctx); [reflexivity | reflexivity | contradiction].
  - cbn. unfold cancel. rewrite Nat.eqb_refl. reflexivity.
Qed.

(** C10: [Conn.Insert] after [ExecDml].  An error of [ExecDml] is returned
    with rowid -1, and a change count of zero gives rowid -1 and no error;
    in both cases the state is the one [ExecDml] left, so
    [sqlite3_last_insert_rowid] was not called.  With a nonzero count the
    rowid is the engine's answer to that call, made once. *)
Theorem Insert_rowid (cmd : string) (args : list Value) (st : State) :
  match Conn_ExecDml cmd args st with
  | Ret (n, Some e) st1 => Conn_Insert cmd args st = Ret (-1, Some e) st1
  | Ret (n, None) st1 =>
      if n =? 0 then Conn_Insert cmd args st = Ret (-1, None) st1
      else
        match conn st1 with
        | Some c =>
            Conn_Insert cmd args st =
              Ret (engine_int (calls st1) (sqlite3_last_insert_rowid (db c)), None)
                  (set_calls (calls st1 ++ [sqlite3_last_insert_rowid (db c)]) st1)
        | None => Conn_Insert cmd args st = Panic nil_dereference st1
        end
  | Panic v st1 => Conn_Insert cmd args st = Panic v st1
  end.
Proof.
  destruct (Conn_ExecDml cmd args st) as [[n [e|]] st1|v st1] eqn:He.
  - unfold Conn_Insert, bind. rewrite He. reflexivity.
  - assert (Hins : Conn_Insert cmd args st =
                   (if n =? 0 then ret (-1, None)
                    else let* rowid := Conn_LastInsertRowid in ret (rowid, None)) st1).
    { unfold Conn_Insert. unfold bind at 1. rewrite He. reflexivity. }
    rewrite Hins. destruct (n =? 0); [reflexivity|].
    unfold Conn_LastInsertRowid, bind, deref, native.
    destruct (conn st1); reflexivity.
  - unfold Conn_Insert, bind. rewrite He. reflexivity.
Qed.

(** *** The progress hook *)

Lemma keeps_hook_ret {A} (a : A) : keeps_hook (ret a).
Proof. intros st c Hc. exists c. split; [exact Hc | reflexivity]. Qed.

Lemma keeps_hook_bind {A B} (m : M A) (k : A -> M B) :
  keeps_hook m -> (forall a, keeps_hook (k a)) -> keeps_hook (bind m k).
Proof.
  intros Hm Hk st c Hc. unfold bind.
  destruct (Hm st c Hc) as (c1 & H1 & E1).
  destruct (m st) as [a st1|v st1]; cbn in H1.
  - destruct (Hk a st1 c1 H1) as (c2 & H2 & E2).
    exists c2. split; [exact H2 | congruence].
  - exists c1. split; assumption.
Qed.

Lemma keeps_hook_keeps_conn {A} (m : M A) : keeps_conn m -> keeps_hook m.
Proof.
  intros Hm st c Hc. destruct (Hm st c Hc) as (a & st' & -> & Hc').
  exists c. split; [exact Hc' | reflexivity].
Qed.

Lemma keeps_hook_stmt_deref (p : nat) : keeps_hook (stmt_deref p).
Proof.
  intros st c Hc. unfold stmt_deref.
  destruct (stmts st !! p); exists c; split; auto.
Qed.

Lemma keeps_hook_result : keeps_hook Conn_result.
Proof.
  apply keeps_hook_keeps_conn. unfold Conn_result, Conn_LastInsertRowid, Conn_Changes.
  intros st c Hc. unfold bind, deref, native. rewrite Hc. cbn. rewrite Hc. cbn.
  eexists _, _. split; [reflexivity | exact Hc].
Qed.

Lemma ProgressHandler_install_eq
    (g : (Context -> DoneChan) -> payload -> bool) (n : Z) (arg : payload)
    (st : State) (c : Conn) :
  conn st = Some c ->
  Conn_ProgressHandler (Some g) n arg st =
    Ret tt (set_calls (calls st ++ [sqlite3_progress_handler (db c) n true])
              (set_conn (Some (set_progressHandler (Some (mkProgress g arg)) c)) st)).
Proof.
  intros Hc. unfold Conn_ProgressHandler, bind, deref, modify_conn, bind, deref, native.
  rewrite Hc. cbn. rewrite Hc. reflexivity.
Qed.

Lemma ProgressHandler_reset_eq (st : State) (c : Conn) :
  conn st = Some c ->
  Conn_ProgressHandler None 0 PNil st =
    Ret tt (set_calls (calls st ++ [sqlite3_progress_handler (db c) 0 false])
              (set_conn (Some (set_progressHandler None c)) st)).
Proof.
  intros Hc. unfold Conn_ProgressHandler, bind, deref, modify_conn, bind, deref, native.
  rewrite Hc. cbn. rewrite Hc. reflexivity.
Qed.

Section Hooks.

(** The statement methods of the package do not touch the hook. *)
Hypothesis BindByIndex_hook : forall x i v, keeps_hook (Stmt_BindByIndex x i v).
Hypothesis BindParameterIndex_hook : forall x n, keeps_hook (Stmt_BindParameterIndex x n).
Hypothesis exec_hook : forall x, keeps_hook (Stmt_exec x).
Hypothesis Next_hook : forall x, keeps_hook (Stmt_Next x).
Hypothesis ScanValue_hook : forall x i b, keeps_hook (Stmt_ScanValue x i b).

Lemma keeps_hook_bindNamedValue (p : nat) (args : list NamedValue) :
  keeps_hook (stmt_bindNamedValue p args).
Proof.
  induction args as [|v rest IH]; cbn [stmt_bindNamedValue]; [apply keeps_hook_ret|].
  apply keeps_hook_bind; [apply keeps_hook_stmt_deref|]. intros x.
  apply keeps_hook_bind.
  - destruct (Z.of_nat (String.length (Name v)) =? 0); [apply BindByIndex_hook|].
    apply keeps_hook_bind; [apply BindParameterIndex_hook|].
    intros [index [e|]]; [apply keeps_hook_ret | apply BindByIndex_hook].
  - intros [e|]; [apply keeps_hook_ret | exact IH].
Qed.

Lemma keeps_hook_scan_from (p : nat) (dest : list Value) :
  forall i, keeps_hook (scan_from p i dest).
Proof.
  induction dest as [|d rest IH]; intros i; cbn [scan_from]; [apply keeps_hook_ret|].
  apply keeps_hook_bind; [apply keeps_hook_stmt_deref|]. intros x.
  apply keeps_hook_bind; [apply ScanValue_hook|]. intros [v ok].
  apply keeps_hook_bind; [apply IH|]. intros rest'. apply keeps_hook_ret.
Qed.

Lemma keeps_hook_Next_step (r : rowsImpl) (dest : list Value) :
  keeps_hook (rowsImpl_Next_step r dest).
Proof.
  unfold rowsImpl_Next_step.
  apply keeps_hook_bind; [apply keeps_hook_stmt_deref|]. intros x.
  apply keeps_hook_bind; [apply Next_hook|]. intros [ok [e|]]; [apply keeps_hook_ret|].
  destruct ok; cbn; [|apply keeps_hook_ret].
  apply keeps_hook_bind; [apply keeps_hook_scan_from|]. intros d. apply keeps_hook_ret.
Qed.

(** Installing the hook, running [body] under the deferred reset: whatever
    [body] does short of losing the connection, the registration is none
    afterwards and the reset is the last thing the engine was told. *)
Lemma hook_reset_after {A} (body : M A) (arg : payload) (st : State) (c : Conn) :
  conn st = Some c ->
  keeps_hook body ->
  exists c',
    conn (state_of
            (bind (Conn_ProgressHandler (Some progressHandler) 100 arg)
               (fun _ => defer (fun _ => Conn_ProgressHandler None 0 PNil) body) st))
      = Some c' /\
    c_progressHandler c' = None /\
    last (calls (state_of
            (bind (Conn_ProgressHandler (Some progressHandler) 100 arg)
               (fun _ => defer (fun _ => Conn_ProgressHandler None 0 PNil) body) st)))
      = Some (sqlite3_progress_handler (db c') 0 false).
Proof.
  intros Hc Hbody. unfold bind.
  rewrite (ProgressHandler_install_eq progressHandler 100 arg st c Hc).
  match goal with |- context [defer _ body ?s] => set (st1 := s) end.
  destruct (Hbody st1 _ eq_refl) as (c2 & Hc2 & _).
  unfold defer.
  destruct (body st1) as [a st2|v st2]; cbn in Hc2;
    rewrite (ProgressHandler_reset_eq st2 c2 Hc2); cbn;
    (eexists; split; [reflexivity | split; [reflexivity | apply last_snoc]]).
Qed.

(** C6: [stmt.ExecContext] and [rowsImpl.Next] leave the connection without
    progress hook, on a connection that had none when they were called,
    however they end: by a normal return, by an error (an interrupted step
    included) or by a panic.  Once the hook was installed, the reset is the
    last call the engine receives; [ExecContext] otherwise stopped at the
    binding of its arguments, and [Next] at the dereference of its
    statement. *)
Theorem progress_hook_uninstalled (st : State) (c : Conn) :
  conn st = Some c ->
  c_progressHandler c = None ->
  (forall p ctx args,
     exists c',
       conn (state_of (stmt_ExecContext p ctx args st)) = Some c' /\
       c_progressHandler c' = None /\
       (last (calls (state_of (stmt_ExecContext p ctx args st)))
          = Some (sqlite3_progress_handler (db c') 0 false) \/
        state_of (stmt_ExecContext p ctx args st)
          = state_of (stmt_bindNamedValue p args st))) /\
  (forall r dest,
     exists c',
       conn (state_of (rowsImpl_Next r dest st)) = Some c' /\
       c_progressHandler c' = None /\
       (r_ctx r <> None ->
        last (calls (state_of (rowsImpl_Next r dest st)))
          = Some (sqlite3_progress_handler (db c') 0 false) \/
        state_of (rowsImpl_Next r dest st) = st)).
Proof.
  intros Hc Hnone. split.
  - intros p ctx args.
    remember (stmt_ExecContext p ctx args st) as o eqn:Ho.
    unfold stmt_ExecContext in Ho. unfold bind at 1 in Ho.
    destruct (keeps_hook_bindNamedValue p args st c Hc) as (c1 & Hc1 & E1).
    destruct (stmt_bindNamedValue p args st) as [[e|] st1|v st1]; cbn in Hc1;
      try (subst o; exists c1; cbn; repeat split; [exact Hc1 | congruence | right; reflexivity]).
    unfold bind at 1 in Ho. unfold stmt_deref at 1 in Ho.
    destruct (stmts st1 !! p) as [x|];
      [|subst o; exists c1; cbn; repeat split; [exact Hc1 | congruence | right; reflexivity]].
    match type of Ho with context [defer _ ?b] =>
      destruct (hook_reset_after b (payload_of_ctx ctx) st1 c1 Hc1) as (c' & H1 & H2 & H3)
    end.
    { apply keeps_hook_bind; [apply keeps_hook_stmt_deref|]. intros y.
      apply keeps_hook_bind; [apply exec_hook|]. intros [e|]; [apply keeps_hook_ret|].
      apply keeps_hook_bind; [apply keeps_hook_result|]. intros r. apply keeps_hook_ret. }
    rewrite <- Ho in H1, H3.
    exists c'. split; [exact H1|]. split; [exact H2|]. left. exact H3.
  - intros r dest.
    remember (rowsImpl_Next r dest st) as o eqn:Ho. unfold rowsImpl_Next in Ho.
    destruct (r_ctx r) as [k|] eqn:Hk.
    + unfold bind at 1 in Ho. unfold stmt_deref at 1 in Ho.
      destruct (stmts st !! r_s r) as [x|];
        [|subst o; exists c; cbn; repeat split;
          [exact Hc | exact Hnone | intros _; right; reflexivity]].
      destruct (hook_reset_after (rowsImpl_Next_step r dest) (payload_of_ctx (Some k)) st c Hc
                  (keeps_hook_Next_step r dest)) as (c' & H1 & H2 & H3).
      rewrite <- Ho in H1, H3.
      exists c'. split; [exact H1|]. split; [exact H2|]. intros _. left. exact H3.
    + destruct (keeps_hook_Next_step r dest st c Hc) as (c' & H1 & E1).
      rewrite <- Ho in H1.
      exists c'. split; [exact H1|]. split; [congruence|]. intros H. contradiction.
Qed.

End Hooks.

(** *** Close *)

(** In a hypothesis that a sequence of calls returned: split off its first
    call, which must have returned too. *)
Ltac first_call H :=
  unfold bind at 1 in H;
  match type of H with
  | match ?o with Ret _ _ => _ | Panic _ _ => _ end = _ =>
      let E := fresh "E" in
      let a := fresh "a" in
      let s' := fresh "s'" in
      destruct o as [a s'|? ?] eqn:E; [|discriminate H]
  end.

(** A [Close] that returned nil leaves a connection whose handle is nil. *)
Lemma Close_success_clears_handle (fuel : nat) (st st1 : State) (c : Conn) :
  conn st = Some c ->
  Conn_Close fuel st = Ret (Some None) st1 ->
  exists c1, conn st1 = Some c1 /\ db c1 = None.
Proof.
  intros Hc H. unfold Conn_Close in H. rewrite Hc in H.
  destruct (db c) as [h|] eqn:Hdb.
  - first_call H. first_call H. first_call H. first_call H.
    destruct a2 as [rv|]; [|discriminate H].
    destruct (rv =? SQLITE_OK) eqn:Hrv; cbn [negb] in H; cbv iota in H.
    + first_call H. cbn in H. injection H as <-.
      unfold modify_conn, bind, deref in E3.
      destruct (conn s'2) as [cb|]; [|discriminate E3].
      inversion E3; subst. eexists. split; reflexivity.
    + first_call H. first_call H. cbn in H.
      unfold Conn_error in E4. rewrite Hrv in E4.
      destruct (conn s'3); cbn in E4; unfold ret in E4, H; congruence.
  - injection H as <-. exists c. split; assumption.
Qed.

(** C7: after a [Conn.Close] that returned nil on a non-nil connection,
    the handle is nil and [IsClosed] is true; a second [Close] returns nil
    and leaves the state as it is, so no native call is made; and [Ping],
    [Exec], [Prepare], [QueryContext], [ExecContext], [Begin] and [BeginTx]
    of the adapter return [driver.ErrBadConn], again without any change of
    state. *)
Theorem Close_twice (fuel : nat) (st st1 : State) (c : Conn) :
  conn st = Some c ->
  Conn_Close fuel st = Ret (Some None) st1 ->
  Conn_IsClosed st1 = true /\
  (exists c1, conn st1 = Some c1 /\ db c1 = None) /\
  (forall fuel', Conn_Close fuel' st1 = Ret (Some None) st1) /\
  (forall ctx, conn_Ping ctx st1 = Ret (Some ErrBadConn) st1) /\
  (forall query args, conn_Exec query args st1 = Ret (None, Some ErrBadConn) st1) /\
  (forall query, conn_Prepare query st1 = Ret (None, Some ErrBadConn) st1) /\
  (forall ctx query args,
     conn_QueryContext ctx query args st1 = Ret (None, Some ErrBadConn) st1) /\
  (forall ctx query args,
     conn_ExecContext ctx query args st1 = Ret (None, Some ErrBadConn) st1) /\
  conn_Begin st1 = Ret (None, Some ErrBadConn) st1 /\
  (forall ctx opts, conn_BeginTx ctx opts st1 = Ret (None, Some ErrBadConn) st1).
Proof.
  intros Hc H.
  destruct (Close_success_clears_handle fuel st st1 c Hc H) as (c1 & Hc1 & Hdb1).
  assert (Hclosed : Conn_IsClosed st1 = true).
  { unfold Conn_IsClosed. rewrite Hc1, Hdb1. reflexivity. }
  split; [exact Hclosed|]. split; [exists c1; split; assumption|].
  split; [intros fuel'; unfold Conn_Close; rewrite Hc1, Hdb1; reflexivity|].
  unfold conn_Ping, conn_Exec, conn_Prepare, conn_QueryContext, conn_ExecContext,
    conn_Begin, conn_BeginTx.
  rewrite Hclosed. repeat split.
Qed.

(** C9: [Conn.BeginTransaction] sends exactly [BEGIN] for [Deferred],
    [BEGIN IMMEDIATE] for [Immediate] and [BEGIN EXCLUSIVE] for [Exclusive],
    and returns in these three cases; for every other transaction type it
    panics, without sending anything, instead of returning an error. *)
Theorem BeginTransaction_variants (st : State) (c : Conn) :
  conn st = Some c ->
  (exists err st', Conn_BeginTransaction Deferred st = Ret err st' /\
     statements (calls st') = (statements (calls st) ++ ["BEGIN"])%list) /\
  (exists err st', Conn_BeginTransaction Immediate st = Ret err st' /\
     statements (calls st') = (statements (calls st) ++ ["BEGIN IMMEDIATE"])%list) /\
  (exists err st', Conn_BeginTransaction Exclusive st = Ret err st' /\
     statements (calls st') = (statements (calls st) ++ ["BEGIN EXCLUSIVE"])%list) /\
  (forall t : TransactionType,
     t <> Deferred -> t <> Immediate -> t <> Exclusive ->
     exists v, Conn_BeginTransaction t st = Panic v st).
Proof.
  intros Hc.
  assert (Hexec : forall sql, exists err st',
             Conn_FastExec sql st = Ret err st' /\
             statements (calls st') = (statements (calls st) ++ [sql])%list).
  { intros sql. destruct (Conn_FastExec_returns sql st c Hc) as (err & st' & H & _ & _ & _ & _ & Hs).
    exists err, st'. split; assumption. }
  repeat split.
  - exact (Hexec "BEGIN").
  - exact (Hexec "BEGIN IMMEDIATE").
  - exact (Hexec "BEGIN EXCLUSIVE").
  - intros t H0 H1 H2. unfold Conn_BeginTransaction.
    destruct (Z.eqb_spec t Deferred); [contradiction|].
    destruct (Z.eqb_spec t Immediate); [contradiction|].
    destruct (Z.eqb_spec t Exclusive); [contradiction|].
    eexists. reflexivity.
Qed.

(** C2: when the COMMIT statement of [Conn.Commit] fails with error [e],
    [Commit] returns [e] itself; if the engine then reports that it is not
    in autocommit mode, exactly one further statement, ROLLBACK, is sent
    (whatever the engine answers to it), and if it reports autocommit mode
    nothing further is sent. *)
Theorem Commit_failure_rolls_back (st : State) (c : Conn) (e : error) (st1 : State) :
  conn st = Some c ->
  Conn_FastExec "COMMIT" st = Ret (Some e) st1 ->
  exists st2,
    Conn_Commit st = Ret (Some e) st2 /\
    statements (calls st2) =
      (statements (calls st1) ++
       (if engine_int (calls st1) (sqlite3_get_autocommit (db c)) =? 0
        then ["ROLLBACK"] else []))%list.
Proof.
  intros Hc Hcommit.
  destruct (Conn_FastExec_returns "COMMIT" st c Hc) as (err & st1' & H & Hc1 & _).
  rewrite Hcommit in H. injection H as <- <-.
  unfold Conn_Commit, bind. rewrite Hcommit.
  unfold Conn_GetAutocommit, bind, deref, native. rewrite Hc1. cbn.
  destruct (engine_int (calls st1) (sqlite3_get_autocommit (db c)) =? 0) eqn:Hauto; cbn.
  - unfold Conn_Rollback.
    set (st1a := set_calls _ st1).
    destruct (Conn_FastExec_returns "ROLLBACK" st1a c Hc1) as (rerr & st2 & Hr & _ & _ & _ & _ & Hs).
    rewrite Hr. cbn. exists st2. split; [reflexivity|].
    rewrite Hs. subst st1a. cbn. rewrite statements_app. cbn. rewrite app_nil_r. reflexivity.
  - eexists. split; [reflexivity|]. cbn.
    rewrite statements_app. cbn. rewrite !app_nil_r. reflexivity.
Qed.

End Properties.

(** ** Instances *)

Lemma BeginTransaction_variants_witness :
  conn (fresh_state 0) = Some (open_conn 0) /\
  exists err st',
    Conn_BeginTransaction (engine := quiet_engine) Immediate (fresh_state 0) = Ret err st' /\
    statements (calls st') = ["BEGIN IMMEDIATE"].
Proof.
  split; [reflexivity|].
  exact (proj1 (proj2 (BeginTransaction_variants (engine := quiet_engine)
                         (fresh_state 0) (open_conn 0) eq_refl))).
Defined.

Lemma Commit_failure_rolls_back_witness :
  exists st2,
    Conn_Commit (engine := busy_commit_engine) (fresh_state 1)
      = Ret (Some (ConnErrorVal (mkConnError SQLITE_BUSY "engine message" EmptyString))) st2 /\
    statements (calls st2) = ["COMMIT"; "ROLLBACK"].
Proof.
  exact (Commit_failure_rolls_back (engine := busy_commit_engine)
           (fresh_state 1) (open_conn 1) _ _ eq_refl eq_refl).
Defined.

Lemma Transaction_restores_depth_witness :
  exists c',
    conn (state_of
            (Conn_Transaction (engine := constraint_engine)
               (package := sample_package constraint_engine)
               Deferred
               (Conn_Transaction (engine := constraint_engine)
                  (package := sample_package constraint_engine) Immediate insert_body)
               (fresh_state 0)))
      = Some c' /\
    nTransaction c' = 0.
Proof.
  refine (proj1 (Transaction_restores_depth (engine := constraint_engine)
                   (package := sample_package constraint_engine)
                   Deferred _ (fresh_state 0) (open_conn 0) eq_refl _ _)).
  - cbn. lia.
  - intros st1 c1 H1 Hn1.
    refine (proj1 (Transaction_restores_depth (engine := constraint_engine)
                     (package := sample_package constraint_engine)
                     Immediate _ st1 c1 H1 _ _)).
    + rewrite Hn1. unfold uint8. apply Z.mod_pos_bound. lia.
    + intros st2 c2 H2 _.
      destruct (keeps_conn_FastExec (engine := constraint_engine)
                  "INSERT INTO t(v) VALUES(1)" st2 c2 H2)
        as (a & st3 & H3 & Hc3).
      exists c2. unfold insert_body. rewrite H3. split; [exact Hc3 | reflexivity].
Defined.

(** C5, at a failing input: inside an outer transaction (depth 1), the body
    runs an INSERT that the engine refuses, and returns the error [FastExec]
    built for it, a [ConnError] value.  The type assertion to [*ConnError]
    does not hold for it, so no full ROLLBACK is sent: the scope is undone
    with ROLLBACK TO SAVEPOINT and RELEASE only.  The same error held by
    pointer does force the ROLLBACK. *)
Theorem Transaction_nested_ConnError_uses_savepoint :
  insert_body (fresh_state 2)
    = Ret (Some (ConnErrorVal (mkConnError 19 "engine message" EmptyString)))
          (set_calls [sqlite3_exec (Some 1%positive) "INSERT INTO t(v) VALUES(1)";
                      sqlite3_errmsg (Some 1%positive)] (fresh_state 2)) /\
  statements (calls (state_of
     (Conn_Transaction (engine := constraint_engine)
        (package := sample_package constraint_engine)
        Deferred insert_body (fresh_state 1))))
    = ["SAVEPOINT '1'"; "INSERT INTO t(v) VALUES(1)";
       "ROLLBACK TO SAVEPOINT '1'"; "RELEASE '1'"] /\
  statements (calls (state_of
     (Conn_Transaction (engine := constraint_engine)
        (package := sample_package constraint_engine)
        Deferred
        (ret (Some (ConnErrorPtr (mkConnError 19 "engine message" EmptyString))))
        (fresh_state 1))))
    = ["SAVEPOINT '1'"; "ROLLBACK"].
Proof. repeat split; vm_compute; reflexivity. Qed.

(** C3, as stated, fails: with a [SetQueryOnly] that issues its pragma, the
    rejection of isolation level 2 (read committed) comes after a statement
    was sent. *)
Lemma BeginTx_rejection_after_statement :
  ~ (forall (engine : Engine) (package : Package)
            (ctx : option Context) (opts : TxOptions) (st : State) (c : Conn),
       conn st = Some c ->
       db c <> None ->
       engine_int (calls st) (sqlite3_get_autocommit (db c)) <> 0 ->
       Isolation opts <> LevelDefault ->
       Isolation opts <> LevelSerializable ->
       Isolation opts <> LevelReadUncommitted ->
       exists st',
         conn_BeginTx ctx opts st =
           Ret (None, Some (errorString
                  ("Isolation level " ++ Itoa (Isolation opts) ++ " is not supported."))) st' /\
         statements (calls st') = statements (calls st)).
Proof.
  intros H.
  destruct (H quiet_engine (sample_package quiet_engine) None
              (mkTxOptions LevelReadCommitted false) (fresh_state 0) (open_conn 0))
    as (st' & Heq & Hs); try (vm_compute; congruence).
  vm_compute in Heq. injection Heq as <-. vm_compute in Hs. discriminate Hs.
Qed.

Lemma BeginTx_unsupported_level_witness :
  conn_BeginTx (engine := quiet_engine) (package := sample_package quiet_engine)
    None (mkTxOptions LevelReadCommitted true) (fresh_state 0)
  = Ret (None, Some (errorString "Isolation level 2 is not supported."))
        (set_calls [sqlite3_get_autocommit (Some 1%positive);
                    sqlite3_exec (Some 1%positive) "PRAGMA query_only=true"]
           (fresh_state 0)).
Proof.
  refine (BeginTx_unsupported_level (engine := quiet_engine)
            (package := sample_package quiet_engine)
            None (mkTxOptions LevelReadCommitted true) (fresh_state 0) (open_conn 0)
            eq_refl _ _ _ _ _); vm_compute; congruence.
Defined.

(** C4, at a failing input: position 0 holds a statement whose Rows are
    still open.  [stmt.Query] refuses and changes nothing;
    [stmt.QueryContext] binds the new argument on the statement in use and
    hands out a second Rows, without error. *)
Theorem QueryContext_ignores_open_rows :
  stmt_Query (package := sample_package quiet_engine) 0 [VInt 42] rows_open_state
    = Ret (None, Some (errorString "previously returned Rows still not closed"))
          rows_open_state /\
  stmt_QueryContext (package := sample_package quiet_engine) 0 (Some 7%nat)
      [mkNamedValue EmptyString 1 (VInt 42)] rows_open_state
    = Ret (Some (mkRows 0 None (Some 7%nat)), None)
          (set_calls [sqlite3_bind 1%positive 1 (VInt 42)] rows_open_state).
Proof. split; vm_compute; reflexivity. Qed.

Lemma Close_twice_witness :
  calls closed_state =
    [sqlite3_close (Some 1%positive); sqlite3_next_stmt (Some 1%positive);
     sqlite3_stmt_busy 77; sqlite3_sql 77;
     sqlite3_log SQLITE_MISUSE ("Dangling statement (not finalize): " ++ dquote ++ "SELECT 1" ++ dquote);
     sqlite3_finalize 77; sqlite3_next_stmt (Some 1%positive);
     sqlite3_close (Some 1%positive)] /\
  Conn_IsClosed closed_state = true /\
  Conn_Close (engine := dangling_engine) (package := sample_package dangling_engine)
    1 closed_state = Ret (Some None) closed_state /\
  conn_Ping (engine := dangling_engine) (package := sample_package dangling_engine)
    None closed_state = Ret (Some ErrBadConn) closed_state.
Proof.
  split; [reflexivity|].
  destruct (Close_twice (engine := dangling_engine)
              (package := sample_package dangling_engine)
              1 (fresh_state 0) closed_state (open_conn 0) eq_refl eq_refl)
    as (H1 & _ & H3 & H4 & _).
  split; [exact H1|]. split; [exact (H3 1%nat) | exact (H4 None)].
Defined.

Lemma polled_step_hook : keeps_hook polled_step.
Proof.
  intros st c Hc. exists c. split; [|reflexivity].
  unfold polled_step. rewrite Hc.
  destruct (c_progressHandler c) as [h|]; [|exact Hc].
  destruct (ph_f h (done st) (ph_udp h)); exact Hc.
Qed.

Lemma progress_hook_uninstalled_witness :
  (exists c',
     conn (state_of (stmt_ExecContext (engine := quiet_engine)
                       (package := polling_package) 0 (Some 7%nat) [] cancelled_state))
       = Some c' /\
     c_progressHandler c' = None) /\
  stmt_ExecContext (engine := quiet_engine) (package := polling_package)
    0 (Some 7%nat) [] cancelled_state
  = Ret (None, Some (ConnErrorVal (mkConnError 9 "interrupted" EmptyString)))
        (set_calls [sqlite3_progress_handler (Some 1%positive) 100 true;
                    sqlite3_progress_handler (Some 1%positive) 0 false]
           cancelled_state) /\
  (exists st',
     stmt_Exec (engine := quiet_engine) (package := polling_package) 0 []
       (state_of (stmt_ExecContext (engine := quiet_engine)
                    (package := polling_package) 0 (Some 7%nat) [] cancelled_state))
     = Ret (Some (mkResult 0 0), None) st').
Proof.
  split; [|split; [reflexivity | eexists; reflexivity]].
  destruct (proj1 (progress_hook_uninstalled (engine := quiet_engine)
                     (package := polling_package)
                     (fun _ _ _ => keeps_hook_ret _)
                     (fun _ _ => keeps_hook_ret _)
                     (fun _ => polled_step_hook)
                     (fun _ => keeps_hook_bind _ _ polled_step_hook
                                 (fun _ => keeps_hook_ret _))
                     (fun _ _ _ => keeps_hook_ret _)
                     cancelled_state (open_conn 0) eq_refl eq_refl)
              0%nat (Some 7%nat) []) as (c' & H1 & H2 & _).
  exists c'. split; assumption.
Defined.

(** ** Further properties *)

Section FurtherProperties.

Context {engine : Engine} {package : Package}.

(** *** Commit and Transaction *)

(** [Commit] on a non-nil connection, in full. *)
Lemma Conn_Commit_spec (st : State) (c : Conn) :
  conn st = Some c ->
  exists err st',
    Conn_Commit st = Ret err st' /\
    conn st' = Some c /\
    (err = None <-> engine_int (calls st) (sqlite3_exec (db c) "COMMIT") = SQLITE_OK) /\
    (engine_int (calls st) (sqlite3_exec (db c) "COMMIT") = SQLITE_OK ->
     calls st' = (calls st ++ [sqlite3_exec (db c) "COMMIT"])%list) /\
    statements (calls st') =
      (statements (calls st) ++
       "COMMIT" ::
       (if engine_int (calls st) (sqlite3_exec (db c) "COMMIT") =? SQLITE_OK then []
        else if engine_int
                  ((calls st ++ [sqlite3_exec (db c) "COMMIT"]) ++ [sqlite3_errmsg (db c)])
                  (sqlite3_get_autocommit (db c)) =? 0
             then ["ROLLBACK"] else []))%list.
Proof.
  intros Hc. unfold Conn_Commit, bind.
  rewrite (Conn_FastExec_eq "COMMIT" st c Hc). cbn zeta.
  destruct (Z.eqb_spec (engine_int (calls st) (sqlite3_exec (db c) "COMMIT")) SQLITE_OK)
    as [Hrc|Hrc].
  - eexists _, _. split; [reflexivity|].
    split; [exact Hc|]. split; [split; [intros _; exact Hrc | reflexivity]|].
    split; [reflexivity|].
    cbn. rewrite statements_app. reflexivity.
  - unfold Conn_GetAutocommit, bind, deref, native. cbn. rewrite Hc. cbn.
    match goal with |- context [if negb (negb (?a =? 0)) then _ else _] =>
      destruct (a =? 0) end; cbn.
    + unfold Conn_Rollback.
      match goal with |- context [Conn_FastExec "ROLLBACK" ?s0] =>
        destruct (Conn_FastExec_returns "ROLLBACK" s0 c Hc)
          as (r & st2 & -> & Hc2 & _ & _ & _ & Hs)
      end.
      eexists _, _. split; [reflexivity|].
      split; [exact Hc2|]. split; [split; [discriminate | contradiction]|].
      split; [contradiction|].
      rewrite Hs. cbn. rewrite !statements_app. cbn.
      rewrite !app_nil_r, <- app_assoc. reflexivity.
    + eexists _, _. split; [reflexivity|].
      split; [exact Hc|]. split; [split; [discriminate | contradiction]|].
      split; [contradiction|].
      cbn. rewrite !statements_app. cbn. rewrite !app_nil_r. reflexivity.
Qed.

(** X1: [Conn.Commit] sends COMMIT first.  It returns nil exactly when the
    engine accepted it, and then COMMIT is the only native call: the
    autocommit mode is not asked for.  After a refused COMMIT at most one
    ROLLBACK follows, and nothing else is ever sent. *)
Theorem Commit_statements (st : State) (c : Conn) :
  conn st = Some c ->
  exists err st',
    Conn_Commit st = Ret err st' /\
    (err = None <-> engine_int (calls st) (sqlite3_exec (db c) "COMMIT") = SQLITE_OK) /\
    (err = None -> calls st' = (calls st ++ [sqlite3_exec (db c) "COMMIT"])%list) /\
    (statements (calls st') = (statements (calls st) ++ ["COMMIT"])%list \/
     (err <> None /\
      statements (calls st') = (statements (calls st) ++ ["COMMIT"; "ROLLBACK"])%list)).
Proof.
  intros Hc.
  destruct (Conn_Commit_spec st c Hc) as (err & st' & H & _ & Hiff & Hok & Hs).
  exists err, st'. split; [exact H|]. split; [exact Hiff|].
  split; [intros He; apply Hok, Hiff, He|].
  rewrite Hs.
  destruct (Z.eqb_spec (engine_int (calls st) (sqlite3_exec (db c) "COMMIT")) SQLITE_OK)
    as [Hrc|Hrc]; [left; reflexivity|].
  match goal with |- context [if ?b then ["ROLLBACK"] else []] => destruct b end.
  - right. split; [|reflexivity]. intros He. apply Hrc, Hiff, He.
  - left. reflexivity.
Qed.

(** The branch of the deferred closure taken when [err] is nil: COMMIT at
    depth 0 and RELEASE of the scope otherwise, then nothing but
    ROLLBACKs. *)
Lemma Transaction_deferred_on_nil (st : State) (c : Conn) :
  conn st = Some c ->
  exists st' extra,
    Conn_Transaction_deferred None st = Ret tt st' /\
    conn st' = Some (set_nTransaction (uint8 (nTransaction c - 1)) c) /\
    statements (calls st') =
      (statements (calls st) ++
       (if uint8 (nTransaction c - 1) =? 0 then "COMMIT"
        else Mprintf "RELEASE %Q" (Itoa (uint8 (nTransaction c - 1)))) :: extra)%list /\
    Forall (fun q => q = "ROLLBACK") extra.
Proof.
  intros Hc. unfold Conn_Transaction_deferred.
  unfold bind at 1. unfold modify_conn, bind, deref. rewrite Hc. cbn.
  set (d := uint8 (nTransaction c - 1)).
  set (c' := set_nTransaction d c). set (st0 := set_conn (Some c') st).
  assert (Hc0 : conn st0 = Some c') by reflexivity.
  assert (Hroll : forall st1 : State, conn st1 = Some c' ->
            exists r st2, Conn_Rollback st1 = Ret r st2 /\
                          conn st2 = Some c' /\
                          statements (calls st2) = (statements (calls st1) ++ ["ROLLBACK"])%list).
  { intros st1 H1. unfold Conn_Rollback.
    destruct (Conn_FastExec_returns "ROLLBACK" st1 c' H1) as (r & st2 & -> & H2 & _ & _ & _ & Hs).
    exists r, st2. repeat split; assumption. }
  destruct (d =? 0).
  - destruct (Conn_Commit_spec st0 c' Hc0) as (err & st1 & -> & Hc1 & _ & _ & Hs).
    destruct err as [e|].
    + destruct (Hroll st1 Hc1) as (r & st2 & -> & Hc2 & Hs2).
      eexists st2, _. split; [reflexivity|]. split; [exact Hc2|].
      split.
      * rewrite Hs2, Hs. rewrite <- app_assoc. cbn. reflexivity.
      * repeat match goal with |- context [if ?b then _ else _] => destruct b end;
          repeat constructor.
    + eexists st1, _. split; [reflexivity|]. split; [exact Hc1|].
      split; [exact Hs|].
      repeat match goal with |- context [if ?b then _ else _] => destruct b end;
        repeat constructor.
  - unfold Conn_ReleaseSavepoint.
    destruct (Conn_FastExec_returns (Mprintf "RELEASE %Q" (Itoa d)) st0 c' Hc0)
      as (err & st1 & -> & Hc1 & _ & _ & _ & Hs).
    destruct err as [e|].
    + destruct (Hroll st1 Hc1) as (r & st2 & -> & Hc2 & Hs2).
      exists st2, ["ROLLBACK"]. split; [reflexivity|]. split; [exact Hc2|].
      split; [|repeat constructor].
      rewrite Hs2, Hs. rewrite <- app_assoc. reflexivity.
    + exists st1, []. split; [reflexivity|]. split; [exact Hc1|].
      split; [exact Hs | constructor].
Qed.

(** [Transaction] once its opening statement returned nil: the counter goes
    up and the body runs under the deferred closure. *)
Lemma Conn_Transaction_opened
    (t : TransactionType) (f : M (option error)) (st st1 : State) (c : Conn) :
  conn st = Some c ->
  (if nTransaction c =? 0 then Conn_BeginTransaction t
   else Conn_Savepoint (Itoa (nTransaction c))) st = Ret None st1 ->
  conn st1 = Some c /\
  Conn_Transaction t f st =
    defer (fun r => Conn_Transaction_deferred (match r with Some e => e | None => None end)) f
      (set_conn (Some (set_nTransaction (uint8 (nTransaction c + 1)) c)) st1).
Proof.
  intros Hc Ho.
  assert (Hc1 : conn st1 = Some c).
  { destruct (nTransaction c =? 0).
    - pose proof (BeginTransaction_conn t st c Hc) as H. rewrite Ho in H. exact H.
    - destruct (keeps_conn_FastExec (Mprintf "SAVEPOINT %Q" (Itoa (nTransaction c))) st c Hc)
        as (a & st' & H & Hc'). unfold Conn_Savepoint in Ho. rewrite Ho in H.
      injection H as _ <-. exact Hc'. }
  split; [exact Hc1|].
  unfold Conn_Transaction. unfold bind at 1. unfold deref. rewrite Hc.
  unfold bind at 1. rewrite Ho.
  unfold bind, modify_conn, bind, deref. rewrite Hc1. reflexivity.
Qed.

(** X2: once the opening BEGIN or SAVEPOINT succeeded, [Conn.Transaction]
    returns exactly what the body returned.  What COMMIT, RELEASE or
    ROLLBACK answer in the deferred closure is assigned to a local variable
    after the result was evaluated, and never reaches the caller: a body
    that returns nil gives nil even when the COMMIT is refused. *)
Theorem Transaction_returns_body_result
    (t : TransactionType) (f : M (option error)) (st st1 st3 : State)
    (c c3 : Conn) (e : option error) :
  conn st = Some c ->
  (if nTransaction c =? 0 then Conn_BeginTransaction t
   else Conn_Savepoint (Itoa (nTransaction c))) st = Ret None st1 ->
  f (set_conn (Some (set_nTransaction (uint8 (nTransaction c + 1)) c)) st1) = Ret e st3 ->
  conn st3 = Some c3 ->
  exists st4, Conn_Transaction t f st = Ret e st4.
Proof.
  intros Hc Ho Hf Hc3.
  destruct (Conn_Transaction_opened t f st st1 c Hc Ho) as (_ & ->).
  unfold defer. rewrite Hf.
  destruct (Transaction_deferred_depth e st3 c3 Hc3) as (st4 & -> & _).
  exists st4. reflexivity.
Qed.

(** X3: when the body panics, the deferred closure of [Conn.Transaction]
    still finds [err] nil and takes the commit branch: the first statement
    sent after the panic is COMMIT (outermost scope) or RELEASE of the
    savepoint (nested scope), not a rollback.  The panic then goes on. *)
Theorem Transaction_body_panic_commits
    (t : TransactionType) (f : M (option error)) (st st1 st3 : State)
    (c c3 : Conn) (v : string) :
  conn st = Some c ->
  (if nTransaction c =? 0 then Conn_BeginTransaction t
   else Conn_Savepoint (Itoa (nTransaction c))) st = Ret None st1 ->
  f (set_conn (Some (set_nTransaction (uint8 (nTransaction c + 1)) c)) st1) = Panic v st3 ->
  conn st3 = Some c3 ->
  exists st4 extra,
    Conn_Transaction t f st = Panic v st4 /\
    statements (calls st4) =
      (statements (calls st3) ++
       (if uint8 (nTransaction c3 - 1) =? 0 then "COMMIT"
        else Mprintf "RELEASE %Q" (Itoa (uint8 (nTransaction c3 - 1)))) :: extra)%list /\
    Forall (fun q => q = "ROLLBACK") extra.
Proof.
  intros Hc Ho Hf Hc3.
  destruct (Conn_Transaction_opened t f st st1 c Hc Ho) as (_ & ->).
  unfold defer. rewrite Hf.
  destruct (Transaction_deferred_on_nil st3 c3 Hc3) as (st4 & extra & -> & _ & Hs & Hx).
  exists st4, extra. split; [reflexivity|]. split; assumption.
Qed.

(** X4: a nested scope is closed under the name it was opened with.  At
    depth [n] between 1 and 255 the call sends SAVEPOINT with the decimal
    text of [n]; when the body returns nil with the counter as it received
    it, the next statement is RELEASE with the same text, followed only by
    ROLLBACKs (when the release was refused), and the counter is [n]
    again. *)
Theorem Transaction_nested_scope_names
    (t : TransactionType) (f : M (option error)) (st st3 : State) (c c3 : Conn) :
  conn st = Some c ->
  0 < nTransaction c < 256 ->
  engine_int (calls st)
    (sqlite3_exec (db c) (Mprintf "SAVEPOINT %Q" (Itoa (nTransaction c)))) = SQLITE_OK ->
  f (set_conn (Some (set_nTransaction (uint8 (nTransaction c + 1)) c))
       (set_calls (calls st ++
                   [sqlite3_exec (db c) (Mprintf "SAVEPOINT %Q" (Itoa (nTransaction c)))]) st))
    = Ret None st3 ->
  conn st3 = Some c3 ->
  nTransaction c3 = uint8 (nTransaction c + 1) ->
  exists st4 extra,
    Conn_Transaction t f st = Ret None st4 /\
    statements (calls st4) =
      (statements (calls st3) ++
       Mprintf "RELEASE %Q" (Itoa (nTransaction c)) :: extra)%list /\
    Forall (fun q => q = "ROLLBACK") extra /\
    (exists c4, conn st4 = Some c4 /\ nTransaction c4 = nTransaction c).
Proof.
  intros Hc Hn Hrc Hf Hc3 Hn3.
  assert (Ho : (if nTransaction c =? 0 then Conn_BeginTransaction t
                else Conn_Savepoint (Itoa (nTransaction c))) st
               = Ret None (set_calls (calls st ++
                   [sqlite3_exec (db c) (Mprintf "SAVEPOINT %Q" (Itoa (nTransaction c)))]) st)).
  { destruct (Z.eqb_spec (nTransaction c) 0); [lia|].
    unfold Conn_Savepoint. rewrite (Conn_FastExec_eq _ st c Hc). cbn zeta.
    rewrite Hrc. reflexivity. }
  destruct (Conn_Transaction_opened t f st _ c Hc Ho) as (_ & ->).
  unfold defer. rewrite Hf.
  destruct (Transaction_deferred_on_nil st3 c3 Hc3) as (st4 & extra & -> & Hc4 & Hs & Hx).
  assert (Hd : uint8 (nTransaction c3 - 1) = nTransaction c).
  { rewrite Hn3. apply uint8_succ_pred. lia. }
  rewrite Hd in Hs, Hc4.
  destruct (Z.eqb_spec (nTransaction c) 0); [lia|].
  exists st4, extra. split; [reflexivity|]. split; [exact Hs|]. split; [exact Hx|].
  eexists. split; [exact Hc4 | reflexivity].
Qed.

(** *** Close, ExecDml and Open *)

Lemma close_attempts_app (k1 k2 : list NativeCall) :
  close_attempts (k1 ++ k2) = (close_attempts k1 + close_attempts k2)%nat.
Proof.
  induction k1 as [|x k1 IH]; [reflexivity|].
  destruct x; simpl; rewrite IH; reflexivity.
Qed.

Lemma no_close_ret {A} (a : A) : no_close (ret a).
Proof. intros st c Hc. exists a, st. repeat split; assumption || reflexivity. Qed.

Lemma no_close_bind {A B} (m : M A) (k : A -> M B) :
  no_close m -> (forall a, no_close (k a)) -> no_close (bind m k).
Proof.
  intros Hm Hk st c Hc. unfold bind.
  destruct (Hm st c Hc) as (a & st1 & -> & Hc1 & Hn1).
  destruct (Hk a st1 c Hc1) as (b & st2 & H2 & Hc2 & Hn2).
  exists b, st2. repeat split; [exact H2 | exact Hc2 | congruence].
Qed.

Lemma no_close_deref : no_close deref.
Proof.
  intros st c Hc. unfold deref. rewrite Hc.
  exists c, st. repeat split; assumption || reflexivity.
Qed.

Lemma no_close_native (k : NativeCall) :
  (forall h, k <> sqlite3_close h) -> no_close (native k).
Proof.
  intros Hk st c Hc. eexists _, _. split; [reflexivity|]. split; [exact Hc|].
  cbn. rewrite close_attempts_app. cbn.
  destruct k; try (cbn; lia). exfalso. eapply Hk. reflexivity.
Qed.

Lemma no_close_native_str (k : NativeCall) :
  (forall h, k <> sqlite3_close h) -> no_close (native_str k).
Proof.
  intros Hk st c Hc. eexists _, _. split; [reflexivity|]. split; [exact Hc|].
  cbn. rewrite close_attempts_app. cbn.
  destruct k; try (cbn; lia). exfalso. eapply Hk. reflexivity.
Qed.

Lemma no_close_Log (rc : Z) (text : string) : no_close (Log rc text).
Proof.
  unfold Log. apply no_close_bind; [apply no_close_native; discriminate|].
  intros _. apply no_close_ret.
Qed.

(** The loop over the dangling statements returns, and closes nothing. *)
Lemma no_close_dangling (fuel : nat) :
  forall first, no_close (Conn_Close_dangling fuel first).
Proof.
  induction fuel as [|fuel IH]; intros first; cbn [Conn_Close_dangling];
    destruct (first =? 0); try apply no_close_ret.
  apply no_close_bind; [apply no_close_native; discriminate|]. intros busy.
  apply no_close_bind; [apply no_close_native_str; discriminate|]. intros sql.
  apply no_close_bind; [destruct (negb (busy =? 0)); apply no_close_Log|]. intros _.
  apply no_close_bind; [apply no_close_native; discriminate|]. intros _.
  apply no_close_bind; [apply no_close_deref|]. intros c'.
  apply no_close_bind; [apply no_close_native; discriminate|]. intros next.
  apply IH.
Qed.

(** [Close] on an open connection, once the cache was flushed: what it
    returns, what it leaves of the connection, and how often it called
    [sqlite3_close]. *)
Lemma Conn_Close_open (fuel : nat) (st s1 : State) (c : Conn) (h : sqlite3) :
  conn st = Some c ->
  db c = Some h ->
  stmtCache_flush st = Ret tt s1 ->
  conn s1 = Some c ->
  exists r st',
    Conn_Close fuel st = Ret r st' /\
    match r with
    | None => True
    | Some None => conn st' = Some (set_db None c)
    | Some (Some e) =>
        conn st' = Some c /\
        exists before,
          calls st' =
            (before ++
             [sqlite3_close (Some h);
              sqlite3_log (engine_int before (sqlite3_close (Some h)))
                "error while closing Conn";
              sqlite3_errmsg (Some h)])%list /\
          e = ConnErrorVal
                (mkConnError (engine_int before (sqlite3_close (Some h)))
                   (engine_str
                      (before ++
                       [sqlite3_close (Some h);
                        sqlite3_log (engine_int before (sqlite3_close (Some h)))
                          "error while closing Conn"])
                      (sqlite3_errmsg (Some h)))
                   "Conn.Close") /\
          engine_int before (sqlite3_close (Some h)) <> SQLITE_OK
    end /\
    (r <> None ->
     close_attempts (calls st') =
       (close_attempts (calls s1) +
        (if (Z.land (engine_int (calls s1) (sqlite3_close (Some h))) 255 =? SQLITE_BUSY)%Z
         then 2 else 1))%nat).
Proof.
  intros Hc Hdb Hflush Hc1.
  unfold Conn_Close. rewrite Hc, Hdb.
  unfold bind at 1. rewrite Hflush.
  unfold bind at 1. unfold deref at 1. rewrite Hc1.
  unfold bind at 1. unfold native at 1. rewrite Hdb.
  set (rv := engine_int (calls s1) (sqlite3_close (Some h))).
  set (s2 := set_calls (calls s1 ++ [sqlite3_close (Some h)]) s1).
  assert (Hc2 : conn s2 = Some c) by exact Hc1.
  assert (Hn2 : close_attempts (calls s2) = (close_attempts (calls s1) + 1)%nat).
  { subst s2. cbn. rewrite close_attempts_app. reflexivity. }
  assert (Hlast : exists last s3,
            (if Z.land rv 255 =? SQLITE_BUSY then
               let* c := deref in
               let* first := native (sqlite3_next_stmt (db c)) in
               let* ended := Conn_Close_dangling fuel first in
               if ended then
                 let* c := deref in
                 let* rv' := native (sqlite3_close (db c)) in
                 ret (Some rv')
               else ret None
             else ret (Some rv)) s2 = Ret last s3 /\
            conn s3 = Some c /\
            (last <> None ->
             close_attempts (calls s3) =
               (close_attempts (calls s1) +
                (if (Z.land rv 255 =? SQLITE_BUSY)%Z then 2 else 1))%nat) /\
            (forall rv', last = Some rv' ->
               exists before,
                 calls s3 = (before ++ [sqlite3_close (Some h)])%list /\
                 rv' = engine_int before (sqlite3_close (Some h)))).
  { destruct (Z.land rv 255 =? SQLITE_BUSY).
    - assert (Hpre : no_close (let* c := deref in
                               let* first := native (sqlite3_next_stmt (db c)) in
                               Conn_Close_dangling fuel first)).
      { apply no_close_bind; [apply no_close_deref|]. intros c'.
        apply no_close_bind; [apply no_close_native; discriminate|]. intros first.
        apply no_close_dangling. }
      destruct (Hpre s2 c Hc2) as (ended & s3 & H3 & Hc3 & Hn3).
      unfold bind in H3. unfold bind.
      destruct (deref s2) as [c' s2'|]; [|discriminate H3].
      destruct (native (sqlite3_next_stmt (db c')) s2') as [first s2''|]; [|discriminate H3].
      rewrite H3.
      destruct ended.
      + unfold deref, native. rewrite Hc3, Hdb.
        eexists _, _. split; [reflexivity|]. split; [exact Hc3|]. split.
        * intros _. cbn. rewrite close_attempts_app, Hn3, Hn2. cbn. lia.
        * intros rv' Hrv'. injection Hrv' as <-. exists (calls s3). split; reflexivity.
      + eexists _, _. split; [reflexivity|]. split; [exact Hc3|]. split.
        * intros H. contradiction.
        * intros rv' Hrv'. discriminate Hrv'.
    - eexists _, _. split; [reflexivity|]. split; [exact Hc2|]. split.
      + intros _. exact Hn2.
      + intros rv' Hrv'. injection Hrv' as <-. exists (calls s1). split; reflexivity. }
  destruct Hlast as (last & s3 & Hl & Hc3 & Hn3 & Hbefore).
  unfold bind at 1. rewrite Hl.
  destruct last as [rv'|].
  - destruct (Z.eqb_spec rv' SQLITE_OK) as [Hrv|Hrv]; cbn [negb].
    + unfold bind, modify_conn, bind, deref. rewrite Hc3.
      eexists _, _. split; [reflexivity|]. split; [reflexivity|].
      intros _. cbn. apply Hn3. discriminate.
    + destruct (no_close_Log rv' "error while closing Conn" s3 c Hc3)
        as ([] & s4 & H4 & Hc4 & Hn4).
      unfold bind at 1. rewrite H4.
      unfold bind at 1. unfold Conn_error. rewrite Hc4.
      destruct (Z.eqb_spec rv' SQLITE_OK); [contradiction|].
      destruct (Hbefore rv' eq_refl) as (before & Hcalls & Hcode).
      assert (H4' : s4 = set_calls (calls s3 ++ [sqlite3_log rv' "error while closing Conn"]) s3).
      { unfold Log, bind, native in H4. injection H4 as <-. reflexivity. }
      eexists _, _. split; [reflexivity|]. split.
      * split; [exact Hc4|]. exists before. subst s4. cbn. rewrite Hcalls, <- Hcode, Hdb.
        split; [rewrite <- !app_assoc; reflexivity|].
        split; [rewrite <- !app_assoc; reflexivity | exact Hrv].
      * intros _. cbn. rewrite close_attempts_app, Hn4. cbn.
        rewrite Hn3 by discriminate. lia.
  - eexists _, _. split; [reflexivity|]. split; [exact I|].
    intros H. contradiction.
Qed.

(** X5: a [Conn.Close] that returns an error leaves the connection as it
    was: the handle is kept, [IsClosed] stays false, and a later [Close]
    will try again.  The native calls end with the last [sqlite3_close],
    the log entry and the read of the engine's message; the error is a
    [ConnError] whose code is the answer, not [SQLITE_OK], to that last
    [sqlite3_close], whose message is the one read, and whose detail is
    [Conn.Close].  (The cache flush is assumed to leave the [Conn] struct
    alone.) *)
Theorem Close_failure_keeps_handle
    (fuel : nat) (st st' : State) (c : Conn) (e : error) :
  conn st = Some c ->
  (forall s1, stmtCache_flush st = Ret tt s1 -> conn s1 = Some c) ->
  Conn_Close fuel st = Ret (Some (Some e)) st' ->
  conn st' = Some c /\
  Conn_IsClosed st' = false /\
  exists before,
    calls st' =
      (before ++
       [sqlite3_close (db c);
        sqlite3_log (engine_int before (sqlite3_close (db c))) "error while closing Conn";
        sqlite3_errmsg (db c)])%list /\
    e = ConnErrorVal
          (mkConnError (engine_int before (sqlite3_close (db c)))
             (engine_str
                (before ++
                 [sqlite3_close (db c);
                  sqlite3_log (engine_int before (sqlite3_close (db c)))
                    "error while closing Conn"])
                (sqlite3_errmsg (db c)))
             "Conn.Close") /\
    engine_int before (sqlite3_close (db c)) <> SQLITE_OK.
Proof.
  intros Hc Hflush H.
  destruct (db c) as [h|] eqn:Hdb.
  - destruct (stmtCache_flush st) as [[] s1|v s1] eqn:Hf.
    + destruct (Conn_Close_open fuel st s1 c h Hc Hdb Hf (Hflush s1 eq_refl))
        as (r & st2 & H2 & Hr & _).
      rewrite H in H2. injection H2 as <- <-.
      destruct Hr as (Hc' & Herr).
      split; [exact Hc'|]. split; [|exact Herr].
      unfold Conn_IsClosed. rewrite Hc', Hdb. reflexivity.
    + unfold Conn_Close in H. rewrite Hc, Hdb in H.
      unfold bind at 1 in H. rewrite Hf in H. discriminate H.
  - unfold Conn_Close in H. rewrite Hc, Hdb in H. discriminate H.
Qed.

(** X6: [Conn.Close] on an open connection calls [sqlite3_close] once, or
    twice when the low byte of the first answer is [SQLITE_BUSY]: after the
    dangling statements were finalized the close is retried once, and a
    second busy answer is not retried. *)
Theorem Close_retries_once
    (fuel : nat) (st s1 st' : State) (c : Conn) (h : sqlite3) (r : option error) :
  conn st = Some c ->
  db c = Some h ->
  stmtCache_flush st = Ret tt s1 ->
  conn s1 = Some c ->
  Conn_Close fuel st = Ret (Some r) st' ->
  close_attempts (calls st') =
    (close_attempts (calls s1) +
     (if (Z.land (engine_int (calls s1) (sqlite3_close (Some h))) 255 =? SQLITE_BUSY)%Z
      then 2 else 1))%nat.
Proof.
  intros Hc Hdb Hf Hc1 H.
  destruct (Conn_Close_open fuel st s1 c h Hc Hdb Hf Hc1) as (r' & st2 & H2 & _ & Hn).
  rewrite H in H2. injection H2 as <- <-.
  apply Hn. discriminate.
Qed.

(** X7: [Conn.ExecDml] finalizes the statement it prepared on every way
    out: the state it ends in is the one [Finalize] leaves after
    [Stmt.ExecDml] returned or panicked.  The count and error are those of
    [Stmt.ExecDml]; what [Finalize] returns is dropped.  When [Prepare]
    fails, -1 and its error are returned and nothing is finalized. *)
Theorem ExecDml_finalizes (cmd : string) (args : list Value) (st : State) :
  match Conn_Prepare cmd [] st with
  | Ret (x, None) st1 =>
      state_of (Conn_ExecDml cmd args st)
        = state_of (Stmt_Finalize x (state_of (Stmt_ExecDml x args st1))) /\
      (forall r st2 ferr st3,
         Stmt_ExecDml x args st1 = Ret r st2 ->
         Stmt_Finalize x st2 = Ret ferr st3 ->
         Conn_ExecDml cmd args st = Ret r st3) /\
      (forall v st2,
         Stmt_ExecDml x args st1 = Panic v st2 ->
         returned (Conn_ExecDml cmd args st) = false)
  | Ret (x, Some e) st1 => Conn_ExecDml cmd args st = Ret (-1, Some e) st1
  | Panic v st1 => Conn_ExecDml cmd args st = Panic v st1
  end.
Proof.
  destruct (Conn_Prepare cmd [] st) as [[x [e|]] st1|v st1] eqn:Hp.
  - unfold Conn_ExecDml, bind. rewrite Hp. reflexivity.
  - assert (Heq : Conn_ExecDml cmd args st =
                  defer (fun _ => run Stmt_Finalize x in ret tt) (Stmt_ExecDml x args) st1).
    { unfold Conn_ExecDml. unfold bind at 1. rewrite Hp. reflexivity. }
    rewrite Heq. unfold defer, bind. split; [|split].
    + destruct (Stmt_ExecDml x args st1) as [r st2|v st2]; cbn;
        destruct (Stmt_Finalize x st2); reflexivity.
    + intros r st2 ferr st3 H1 H2. rewrite H1, H2. reflexivity.
    + intros v st2 H1. rewrite H1. destruct (Stmt_Finalize x st2); reflexivity.
  - unfold Conn_ExecDml, bind. rewrite Hp. reflexivity.
Qed.

(** X8: when [configure] fails, [impl.Open] closes the connection that
    [open] made before it returns, and the error it returns is the one of
    [configure]: what [Close] returns is dropped.  If that [Close] returned
    nil, the connection left behind is closed. *)
Theorem Open_configure_failure_closes
    (d : impl) (configure : M (option error)) (fuel : nat) (name : string)
    (st st1 st2 st3 : State) (e : error) (r : option error) :
  impl_configure d = Some configure ->
  impl_open d name st = Ret None st1 ->
  configure st1 = Ret (Some e) st2 ->
  Conn_Close fuel st2 = Ret (Some r) st3 ->
  impl_Open d fuel name st = Ret (Some (None, Some e)) st3 /\
  (r = None -> conn st2 <> None -> Conn_IsClosed st3 = true).
Proof.
  intros Hcfg Hopen Hconf Hclose. split.
  - unfold impl_Open. unfold bind at 1. rewrite Hopen, Hcfg.
    unfold bind at 1. rewrite Hconf. unfold bind. rewrite Hclose. reflexivity.
  - intros -> Hnn. destruct (conn st2) as [c2|] eqn:Hc2; [|contradiction].
    destruct (Close_success_clears_handle fuel st2 st3 c2 Hc2 Hclose) as (c3 & Hc3 & Hdb3).
    unfold Conn_IsClosed. rewrite Hc3, Hdb3. reflexivity.
Qed.

(** *** The adapter: transactions and Ping *)

(** X9: [conn.BeginTx] on an open connection that is not in autocommit
    mode: the error about nested transactions, after the single call that
    asks for the autocommit mode.  [SetQueryOnly] is not called and no
    statement is sent, whatever the options. *)
Theorem BeginTx_nested_rejected
    (ctx : option Context) (opts : TxOptions) (st : State) (c : Conn) :
  conn st = Some c ->
  db c <> None ->
  engine_int (calls st) (sqlite3_get_autocommit (db c)) = 0 ->
  conn_BeginTx ctx opts st =
    Ret (None, Some (errorString "Nested transcations are not supported"))
        (set_calls (calls st ++ [sqlite3_get_autocommit (db c)]) st).
Proof.
  intros Hc Hdb Hauto.
  unfold conn_BeginTx, Conn_IsClosed. rewrite Hc.
  destruct (db c) as [h|] eqn:Hh; [|contradiction].
  unfold bind at 1. unfold Conn_GetAutocommit, bind, deref, native. rewrite Hc, Hh. cbn.
  rewrite Hauto. reflexivity.
Qed.

(** X10: [conn.BeginTx] with a supported isolation level, once
    [SetQueryOnly] returned nil and left the connection alone: the pragma
    [read_uncommitted=1] for read-uncommitted and [read_uncommitted=0] for
    default and serializable, then BEGIN when the pragma was accepted and
    nothing when it was refused.  A transaction is handed out exactly when
    no error is. *)
Theorem BeginTx_supported_level
    (ctx : option Context) (opts : TxOptions) (st st1 : State) (c : Conn) :
  conn st = Some c ->
  db c <> None ->
  engine_int (calls st) (sqlite3_get_autocommit (db c)) <> 0 ->
  SetQueryOnly EmptyString (ReadOnly opts)
    (set_calls (calls st ++ [sqlite3_get_autocommit (db c)]) st) = Ret None st1 ->
  conn st1 = Some c ->
  Isolation opts = LevelDefault \/ Isolation opts = LevelSerializable \/
  Isolation opts = LevelReadUncommitted ->
  exists r st',
    conn_BeginTx ctx opts st = Ret r st' /\
    statements (calls st') =
      (statements (calls st1) ++
       (if Isolation opts =? LevelReadUncommitted
        then "PRAGMA read_uncommitted=1" else "PRAGMA read_uncommitted=0") ::
       (if engine_int (calls st1)
             (sqlite3_exec (db c)
                (if Isolation opts =? LevelReadUncommitted
                 then "PRAGMA read_uncommitted=1" else "PRAGMA read_uncommitted=0"))
           =? SQLITE_OK
        then ["BEGIN"] else []))%list /\
    (r = (Some the_conn, None) \/ exists e, r = (None, Some e)).
Proof.
  intros Hc Hdb Hauto Hset Hc1 Hlevel.
  assert (Hbegin : forall s2, conn s2 = Some c ->
            exists r st', conn_Begin s2 = Ret r st' /\
              statements (calls st') = (statements (calls s2) ++ ["BEGIN"])%list /\
              (r = (Some the_conn, None) \/ exists e, r = (None, Some e))).
  { intros s2 H2. unfold conn_Begin, Conn_IsClosed. rewrite H2.
    destruct (db c) as [h|]; [|contradiction].
    unfold Conn_Begin, Conn_BeginTransaction. cbn [Z.eqb Deferred]. unfold bind.
    destruct (Conn_FastExec_returns "BEGIN" s2 c H2) as (err & st' & -> & _ & _ & _ & _ & Hs).
    destruct err as [e|]; eexists _, _; (split; [reflexivity|]); (split; [exact Hs|]).
    - right. eexists. reflexivity.
    - left. reflexivity. }
  assert (Hpragma : forall q (k : M (option Tx * option error)),
            k = conn_Begin ->
            exists r st',
              (let* err := Conn_FastExec q in
               match err with Some _ => ret (None, err) | None => k end) st1 = Ret r st' /\
              statements (calls st') =
                (statements (calls st1) ++
                 q :: (if engine_int (calls st1) (sqlite3_exec (db c) q) =? SQLITE_OK
                       then ["BEGIN"] else []))%list /\
              (r = (Some the_conn, None) \/ exists e, r = (None, Some e))).
  { intros q k ->. unfold bind. rewrite (Conn_FastExec_eq q st1 c Hc1). cbn zeta.
    destruct (engine_int (calls st1) (sqlite3_exec (db c) q) =? SQLITE_OK).
    - match goal with |- context [conn_Begin ?s2] =>
        destruct (Hbegin s2 Hc1) as (r & st' & -> & Hs & Hr)
      end.
      exists r, st'. split; [reflexivity|]. split; [|exact Hr].
      rewrite Hs. cbn. rewrite statements_app. cbn. rewrite <- app_assoc. reflexivity.
    - eexists _, _. split; [reflexivity|]. split.
      + cbn. rewrite !statements_app. cbn. rewrite app_nil_r. reflexivity.
      + right. eexists. reflexivity. }
  unfold conn_BeginTx, Conn_IsClosed. rewrite Hc.
  destruct (db c) as [h|] eqn:Hh; [|contradiction].
  unfold bind at 1. unfold Conn_GetAutocommit, bind at 1, deref, native. rewrite Hc, Hh.
  unfold bind at 1. cbn [ret].
  destruct (Z.eqb_spec (engine_int (calls st) (sqlite3_get_autocommit (Some h))) 0);
    [contradiction|]. cbn [negb].
  unfold bind at 1. rewrite Hset.
  destruct Hlevel as [Hl|[Hl|Hl]]; rewrite Hl; cbn [Z.eqb LevelDefault LevelSerializable
    LevelReadUncommitted orb Pos.eqb];
    apply Hpragma; reflexivity.
Qed.

(** [Conn.result] reads the rowid, then the change count, and sends no
    statement. *)
Lemma Conn_result_returns (st : State) (c : Conn) :
  conn st = Some c ->
  Conn_result st =
    Ret (mkResult
           (engine_int (calls st) (sqlite3_last_insert_rowid (db c)))
           (engine_int (calls st ++ [sqlite3_last_insert_rowid (db c)])
              (sqlite3_changes (db c))))
        (set_calls ((calls st ++ [sqlite3_last_insert_rowid (db c)]) ++
                    [sqlite3_changes (db c)]) st).
Proof.
  intros Hc. unfold Conn_result, Conn_LastInsertRowid, Conn_Changes.
  unfold bind, deref, native. rewrite Hc. cbn. rewrite Hc. reflexivity.
Qed.

(** X11: [conn.Ping] on an open connection sends exactly one statement, the
    pragma as the source spells it, and returns nil exactly when the engine
    accepted it. *)
Theorem Ping_statement (ctx : option Context) (st : State) (c : Conn) :
  conn st = Some c ->
  db c <> None ->
  exists err st',
    conn_Ping ctx st = Ret err st' /\
    statements (calls st') = (statements (calls st) ++ ["PRAGMA schema_verion"])%list /\
    (err = None <->
     engine_int (calls st) (sqlite3_exec (db c) "PRAGMA schema_verion") = SQLITE_OK).
Proof.
  intros Hc Hdb.
  assert (Hopen : Conn_IsClosed st = false).
  { unfold Conn_IsClosed. rewrite Hc. destruct (db c); [reflexivity | contradiction]. }
  assert (Hexec : conn_Exec "PRAGMA schema_verion" [] st =
            (let* err := Conn_FastExec "PRAGMA schema_verion" in
             match err with
             | Some _ => ret (None, err)
             | None => let* r := Conn_result in ret (Some r, None)
             end) st).
  { unfold conn_Exec. rewrite Hopen. reflexivity. }
  unfold conn_Ping. rewrite Hopen. unfold bind at 1. rewrite Hexec.
  unfold bind at 1. rewrite (Conn_FastExec_eq _ st c Hc). cbn zeta.
  destruct (Z.eqb_spec (engine_int (calls st) (sqlite3_exec (db c) "PRAGMA schema_verion"))
              SQLITE_OK) as [Hrc|Hrc].
  - unfold bind.
    match goal with |- context [Conn_result ?s0] =>
      rewrite (Conn_result_returns s0 c Hc)
    end.
    eexists _, _. split; [reflexivity|]. split.
    + cbn. rewrite !statements_app. cbn. rewrite !app_nil_r. reflexivity.
    + split; [intros _; exact Hrc | reflexivity].
  - eexists _, _. split; [reflexivity|]. split.
    + cbn. rewrite !statements_app. cbn. rewrite app_nil_r. reflexivity.
    + split; [discriminate | contradiction].
Qed.

(** *** The adapter: statements and rows *)

Lemma stmt_bind_from_app (p : nat) (l1 l2 : list Value) :
  forall i st,
    stmt_bind_from p i (l1 ++ l2) st =
      match stmt_bind_from p i l1 st with
      | Ret None st1 => stmt_bind_from p (i + Z.of_nat (length l1)) l2 st1
      | o => o
      end.
Proof.
  induction l1 as [|v l1 IH]; intros i st.
  - cbn. rewrite Z.add_0_r. reflexivity.
  - cbn [app stmt_bind_from length]. unfold bind.
    destruct (stmt_deref p st) as [x s1|w s1]; [|reflexivity].
    destruct (Stmt_BindByIndex (s x) (i + 1) v s1) as [[e|] s2|w s2]; try reflexivity.
    rewrite IH. replace (i + 1 + Z.of_nat (length l1)) with (i + Z.of_nat (S (length l1))) by lia.
    reflexivity.
Qed.

(** X12: [stmt.bind] goes through its arguments from left to right, binds
    the argument at position k (from 0) under index k+1, and stops at the
    first binding that fails: the arguments after it are not bound. *)
Theorem stmt_bind_positions (p : nat) (l1 l2 : list Value) (v : Value) (st : State) :
  stmt_bind p (l1 ++ v :: l2) st =
    match stmt_bind p l1 st with
    | Ret None st1 =>
        (let* x := stmt_deref p in
         let* err := Stmt_BindByIndex (s x) (Z.of_nat (length l1) + 1) v in
         match err with
         | Some _ => ret err
         | None => stmt_bind_from p (Z.of_nat (length l1) + 1) l2
         end) st1
    | o => o
    end.
Proof.
  unfold stmt_bind. rewrite stmt_bind_from_app.
  destruct (stmt_bind_from p 0 l1 st) as [[e|] st1|w st1]; reflexivity.
Qed.

(** Binding two lists of named values in a row is binding the first and,
    if that gave no error, the second on the state it left. *)
Lemma stmt_bindNamedValue_app (p : nat) (l1 l2 : list NamedValue) (st : State) :
  stmt_bindNamedValue p (l1 ++ l2) st =
    match stmt_bindNamedValue p l1 st with
    | Ret None st1 => stmt_bindNamedValue p l2 st1
    | o => o
    end.
Proof.
  revert st. induction l1 as [|v l1 IH]; intros st; [reflexivity|].
  cbn [app stmt_bindNamedValue]. unfold bind.
  destruct (stmt_deref p st) as [x s1|w s1]; [|reflexivity].
  destruct (Z.of_nat (String.length (Name v)) =? 0).
  - destruct (Stmt_BindByIndex (s x) (Ordinal v) (NValue v) s1) as [[e|] s2|w s2];
      try reflexivity. apply IH.
  - destruct (Stmt_BindParameterIndex (s x) (Name v) s1) as [[index [e|]] s2|w s2];
      try reflexivity.
    destruct (Stmt_BindByIndex (s x) index (NValue v) s2) as [[e|] s3|w s3];
      try reflexivity. apply IH.
Qed.

(** X13: [stmt.bindNamedValue] binds its values in order and stops at the
    first failure.  Once the values before [v] are bound without error, [v]
    is bound next: under its [Ordinal] when its name is empty, and otherwise
    under the index that [BindParameterIndex] gives for its name; when the
    name is unknown that error is returned and [v] is not bound.  The values
    after [v] are bound only if [v] was bound without error. *)
Theorem stmt_bindNamedValue_order
    (p : nat) (l1 l2 : list NamedValue) (v : NamedValue) (st : State) :
  stmt_bindNamedValue p (l1 ++ v :: l2) st =
    match stmt_bindNamedValue p l1 st with
    | Ret None st1 =>
        (let* x := stmt_deref p in
         if Z.of_nat (String.length (Name v)) =? 0 then
           let* err := Stmt_BindByIndex (s x) (Ordinal v) (NValue v) in
           match err with
           | Some _ => ret err
           | None => stmt_bindNamedValue p l2
           end
         else
           let* (index, err) := Stmt_BindParameterIndex (s x) (Name v) in
           match err with
           | Some _ => ret err
           | None =>
               let* err := Stmt_BindByIndex (s x) index (NValue v) in
               match err with
               | Some _ => ret err
               | None => stmt_bindNamedValue p l2
               end
           end) st1
    | o => o
    end.
Proof.
  rewrite stmt_bindNamedValue_app.
  destruct (stmt_bindNamedValue p l1 st) as [[e|] st1|w st1]; try reflexivity.
  cbn [stmt_bindNamedValue]. unfold bind.
  destruct (stmt_deref p st1) as [x s1|w s1]; [|reflexivity].
  destruct (Z.of_nat (String.length (Name v)) =? 0).
  - destruct (Stmt_BindByIndex (s x) (Ordinal v) (NValue v) s1) as [[e|] s2|w s2];
      reflexivity.
  - destruct (Stmt_BindParameterIndex (s x) (Name v) s1) as [[index [e|]] s2|w s2];
      reflexivity.
Qed.

(** The scan loop gives each position what [ScanValue] returns for it: the
    contents of [dest] play no part. *)
Lemma scan_from_positions (p : nat) (dest : list Value) :
  forall i st, scan_from p i dest st = scanned_positions p i (length dest) st.
Proof.
  induction dest as [|d dest IH]; intros i st; [reflexivity|].
  cbn [scan_from scanned_positions length]. unfold bind.
  destruct (stmt_deref p st) as [x s1|]; [|reflexivity].
  destruct (Stmt_ScanValue (s x) i true s1) as [[v ok] s2|]; [|reflexivity].
  rewrite IH. reflexivity.
Qed.

Lemma scan_from_length (p : nat) (dest : list Value) :
  forall i st d st', scan_from p i dest st = Ret d st' -> length d = length dest.
Proof.
  induction dest as [|x dest IH]; intros i st d st' H.
  - injection H as <- _. reflexivity.
  - cbn [scan_from] in H. unfold bind at 1 in H.
    destruct (stmt_deref p st) as [y s1|]; [|discriminate H].
    unfold bind at 1 in H.
    destruct (Stmt_ScanValue (s y) i true s1) as [[v ok] s2|]; [|discriminate H].
    unfold bind at 1 in H.
    destruct (scan_from p (i + 1) dest s2) as [rest s3|] eqn:Hr; [|discriminate H].
    injection H as <- _. cbn. f_equal. exact (IH _ _ _ _ Hr).
Qed.

Lemma defer_returned {A} (dfr : option A -> M unit) (body : M A) (st st' : State) (a : A) :
  defer dfr body st = Ret a st' -> exists st1, body st = Ret a st1.
Proof.
  unfold defer. intros H.
  destruct (body st) as [b st1|v st1].
  - destruct (dfr (Some b) st1); [|discriminate H].
    injection H as -> _. exists st1. reflexivity.
  - destruct (dfr None st1); discriminate H.
Qed.

Lemma Next_step_dest (r : rowsImpl) (dest dest' : list Value)
    (err : option error) (st st' : State) :
  rowsImpl_Next_step r dest st = Ret (dest', err) st' ->
  length dest' = length dest /\ (err <> None -> dest' = dest) /\
  (err = None ->
   exists x s2,
     stmts st !! r_s r = Some x /\
     Stmt_Next (s x) st = Ret (true, None) s2 /\
     scanned_positions (r_s r) 0 (length dest) s2 = Ret dest' st').
Proof.
  unfold rowsImpl_Next_step. intros H.
  unfold bind at 1 in H. unfold stmt_deref at 1 in H.
  destruct (stmts st !! r_s r) as [x|] eqn:Hp; [|discriminate H].
  unfold bind at 1 in H.
  destruct (Stmt_Next (s x) st) as [[ok [e|]] s2|] eqn:Hnext; [| |discriminate H].
  - injection H as <- <- _. split; [reflexivity|]. split; [reflexivity | discriminate].
  - destruct ok; cbn [negb] in H.
    + unfold bind at 1 in H.
      destruct (scan_from (r_s r) 0 dest s2) as [d s3|] eqn:Hs; [|discriminate H].
      injection H as <- <- <-. split; [exact (scan_from_length _ _ _ _ _ _ Hs)|].
      split; [intros Hn; contradiction|].
      intros _. exists x, s2.
      split; [first [reflexivity | exact Hp]|].
      split; [first [reflexivity | exact Hnext]|].
      rewrite <- scan_from_positions. exact Hs.
    + injection H as <- <- _. split; [reflexivity|]. split; [reflexivity | discriminate].
Qed.

(** X14: when [rowsImpl.Next] returns, [dest] has the length it had.  With
    an error, [io.EOF] included, its contents are untouched.  Without one,
    the statement was stepped (after the hook was installed, when there is
    a context) and reported a row, and [dest] then holds, position by
    position from 0, what [ScanValue] returned for that position: nothing
    of its former contents is left. *)
Theorem Next_keeps_dest_length (r : rowsImpl) (dest dest' : list Value)
    (err : option error) (st st' : State) :
  rowsImpl_Next r dest st = Ret (dest', err) st' ->
  length dest' = length dest /\ (err <> None -> dest' = dest) /\
  (err = None ->
   exists x s2 s3,
     stmts st !! r_s r = Some x /\
     Stmt_Next (s x)
       (match r_ctx r with
        | Some _ =>
            state_of (Conn_ProgressHandler (Some progressHandler) 100
                        (payload_of_ctx (r_ctx r)) st)
        | None => st
        end) = Ret (true, None) s2 /\
     scanned_positions (r_s r) 0 (length dest) s2 = Ret dest' s3).
Proof.
  unfold rowsImpl_Next. intros H.
  destruct (r_ctx r) as [k|] eqn:Hk.
  - unfold bind at 1 in H. unfold stmt_deref at 1 in H.
    destruct (stmts st !! r_s r) as [x|] eqn:Hp; [|discriminate H].
    unfold bind at 1 in H.
    destruct (conn st) as [c0|] eqn:Hc.
    + rewrite (ProgressHandler_install_eq progressHandler 100 (payload_of_ctx (Some k))
                 st c0 Hc) in H.
      rewrite (ProgressHandler_install_eq progressHandler 100 (payload_of_ctx (Some k))
                 st c0 Hc).
      cbn [state_of].
      destruct (defer_returned _ _ _ _ _ H) as (s3 & H3).
      destruct (Next_step_dest r dest dest' err _ s3 H3) as (H1 & H2 & H4).
      split; [exact H1|]. split; [exact H2|].
      intros He. destruct (H4 He) as (x' & s2 & Hp' & Hn & Hs).
      cbn in Hp'. rewrite Hp in Hp'. injection Hp' as <-.
      exists x, s2, s3. split; [reflexivity|]. split; [exact Hn | exact Hs].
    + unfold Conn_ProgressHandler at 1 in H. unfold bind at 1 in H.
      unfold deref at 1 in H. rewrite Hc in H. discriminate H.
  - destruct (Next_step_dest r dest dest' err st st' H) as (H1 & H2 & H4).
    split; [exact H1|]. split; [exact H2|].
    intros He. destruct (H4 He) as (x & s2 & Hp & Hn & Hs).
    exists x, s2, st'. split; [exact Hp|]. split; [exact Hn | exact Hs].
Qed.

Variable Stmt_Reset : Stmt -> M (option error).

(** X15: closing a statement whose Rows are open only marks it: nothing is
    finalized and nil is returned.  The [Close] of the Rows then clears the
    open mark and finalizes the statement.  Without a pending close, the
    [Close] of the Rows clears the mark and resets the statement. *)
Theorem Close_statement_then_rows (p : nat) (x : stmt) (r : rowsImpl) (st : State) :
  stmts st !! p = Some x ->
  rowsRef x = true ->
  r_s r = p ->
  stmt_Close p st
    = Ret None (set_stmts (<[p := mkStmt (s x) true true]> (stmts st)) st) /\
  rowsImpl_Close Stmt_Reset r (set_stmts (<[p := mkStmt (s x) true true]> (stmts st)) st)
    = Stmt_Finalize (s x) (set_stmts (<[p := mkStmt (s x) false true]> (stmts st)) st) /\
  (pendingClose x = false ->
   rowsImpl_Close Stmt_Reset r st
     = Stmt_Reset (s x) (set_stmts (<[p := mkStmt (s x) false false]> (stmts st)) st)).
Proof.
  intros Hp Hr Hrs. pose proof (lookup_lt_Some _ _ _ Hp) as Hlt.
  split; [|split].
  - unfold stmt_Close, bind, stmt_deref. rewrite Hp, Hr.
    unfold stmt_set_pendingClose, bind, stmt_deref. rewrite Hp, Hr. reflexivity.
  - unfold rowsImpl_Close. rewrite Hrs.
    unfold bind at 1. unfold stmt_set_rowsRef, bind, stmt_deref. cbn [stmts set_stmts].
    rewrite list_lookup_insert_eq by exact Hlt. cbn.
    rewrite list_insert_insert_eq.
    rewrite list_lookup_insert_eq by exact Hlt. cbn.
    unfold stmt_Close, bind, stmt_deref. cbn [stmts set_stmts].
    rewrite list_lookup_insert_eq by exact Hlt. reflexivity.
  - intros Hpc. unfold rowsImpl_Close. rewrite Hrs.
    unfold bind at 1. unfold stmt_set_rowsRef, bind, stmt_deref. rewrite Hp. cbn.
    rewrite list_lookup_insert_eq by exact Hlt. cbn. rewrite Hpc. reflexivity.
Qed.

(** X16: through [stmt.Query] a statement has at most one Rows.  After a
    [Query] that handed out Rows, these point to the statement, the
    statement is marked, and every further [Query] on it is refused with
    the state unchanged. *)
Theorem Query_once (p : nat) (args : list Value) (r : rowsImpl) (st st1 : State) :
  stmt_Query p args st = Ret (Some r, None) st1 ->
  r_s r = p /\
  (exists x, stmts st1 !! p = Some x /\ rowsRef x = true) /\
  (forall args',
     stmt_Query p args' st1 =
       Ret (None, Some (errorString "previously returned Rows still not closed")) st1).
Proof.
  intros H. unfold stmt_Query in H. unfold bind at 1 in H.
  destruct (stmt_deref p st) as [x s0|]; [|discriminate H].
  destruct (rowsRef x); [discriminate H|].
  unfold bind at 1 in H.
  destruct (stmt_bind p args s0) as [[e|] s1|]; [discriminate H| |discriminate H].
  unfold bind at 1 in H. unfold stmt_set_rowsRef, bind, stmt_deref in H.
  destruct (stmts s1 !! p) as [x1|] eqn:Hp1; [|discriminate H].
  injection H as <- <-.
  assert (Hlook : stmts (set_stmts (<[p := mkStmt (s x1) true (pendingClose x1)]> (stmts s1)) s1)
                    !! p = Some (mkStmt (s x1) true (pendingClose x1))).
  { cbn. apply list_lookup_insert_eq. exact (lookup_lt_Some _ _ _ Hp1). }
  split; [reflexivity|]. split.
  - eexists. split; [exact Hlook | reflexivity].
  - intros args'. exact (stmt_Query_rows_open p _ args' _ Hlook eq_refl).
Qed.

(** *** Error texts *)

Lemma prefix_append (a b : string) : String.prefix a (a ++ b) = true.
Proof.
  induction a as [|ch a IH]; cbn.
  - destruct b; reflexivity.
  - destruct (Ascii.ascii_dec ch ch) as [_|Hne]; [exact IH | contradiction].
Qed.

Lemma prefix_append2 (a b d : string) : String.prefix a ((a ++ b) ++ d) = true.
Proof.
  induction a as [|ch a IH]; cbn.
  - destruct (b ++ d); reflexivity.
  - destruct (Ascii.ascii_dec ch ch) as [_|Hne]; [exact IH | contradiction].
Qed.

(** X17: the text of an [OpenError] always starts with the file name, or
    with [(temporary)] when the name is empty, followed by [: open: ]. *)
Theorem OpenError_Error_names_file (e : OpenError) :
  String.prefix
    ((if String.eqb (Filename e) EmptyString then "(temporary)" else Filename e) ++ ": open: ")
    (OpenError_Error e) = true.
Proof.
  unfold OpenError_Error. cbn zeta.
  destruct (0 <? Z.of_nat (String.length (Msg e))); [|apply prefix_append].
  destruct (negb _); [apply prefix_append2 | apply prefix_append].
Qed.

Lemma append_not_empty (a b : string) : b <> EmptyString -> a ++ b <> EmptyString.
Proof. destruct a; cbn; [auto | discriminate]. Qed.

(** X18: the text of an [Errno] is never empty: a code the engine has no
    text for is printed as [errno] and its number.  The text of a
    [ConnError] is never empty either. *)
Theorem Error_text_not_empty (rc : Z) (e : ConnError) :
  Errno_Error rc <> EmptyString /\ ConnError_Error e <> EmptyString.
Proof.
  assert (Herrno : forall n, Errno_Error n <> EmptyString).
  { intros n. unfold Errno_Error. cbn zeta.
    match goal with |- (if String.eqb ?tx EmptyString then _ else _) <> _ =>
      destruct (String.eqb_spec tx EmptyString) as [_|Hne]; [discriminate | exact Hne]
    end. }
  split; [apply Herrno|].
  unfold ConnError_Error.
  destruct (0 <? Z.of_nat (String.length (details e))).
  - apply append_not_empty. discriminate.
  - destruct (0 <? Z.of_nat (String.length (msg e))).
    + apply append_not_empty. discriminate.
    + apply Herrno.
Qed.

End FurtherProperties.

(** ** Instances of the further properties *)

Lemma Commit_statements_witness :
  exists err st',
    Conn_Commit (engine := quiet_engine) (fresh_state 1) = Ret err st' /\
    (err = None -> calls st' = [sqlite3_exec (Some 1%positive) "COMMIT"]).
Proof.
  destruct (Commit_statements (engine := quiet_engine) (fresh_state 1) (open_conn 1) eq_refl)
    as (err & st' & H & _ & Hcalls & _).
  exists err, st'. split; [exact H | exact Hcalls].
Defined.

Lemma Transaction_returns_body_result_witness :
  exists st4,
    Conn_Transaction (engine := busy_commit_engine)
      (package := sample_package busy_commit_engine) Deferred (ret None) (fresh_state 0)
    = Ret None st4.
Proof.
  exact (Transaction_returns_body_result (engine := busy_commit_engine)
           (package := sample_package busy_commit_engine)
           Deferred (ret None) (fresh_state 0) _ _ (open_conn 0) _ None
           eq_refl eq_refl eq_refl eq_refl).
Defined.

Lemma Transaction_body_panic_commits_witness :
  exists st4 extra,
    Conn_Transaction (engine := quiet_engine) (package := sample_package quiet_engine)
      Deferred (panic "body panicked") (fresh_state 0) = Panic "body panicked" st4 /\
    statements (calls st4) = ("BEGIN" :: "COMMIT" :: extra) /\
    Forall (fun q => q = "ROLLBACK") extra.
Proof.
  exact (Transaction_body_panic_commits (engine := quiet_engine)
           (package := sample_package quiet_engine)
           Deferred (panic "body panicked") (fresh_state 0) _ _ (open_conn 0) _
           "body panicked" eq_refl eq_refl eq_refl eq_refl).
Defined.

Lemma Transaction_nested_scope_names_witness :
  exists st4 extra,
    Conn_Transaction (engine := quiet_engine) (package := sample_package quiet_engine)
      Deferred (ret None) (fresh_state 3) = Ret None st4 /\
    statements (calls st4) = ("SAVEPOINT '3'" :: "RELEASE '3'" :: extra) /\
    Forall (fun q => q = "ROLLBACK") extra /\
    (exists c4, conn st4 = Some c4 /\ nTransaction c4 = 3).
Proof.
  refine (Transaction_nested_scope_names (engine := quiet_engine)
            (package := sample_package quiet_engine)
            Deferred (ret None) (fresh_state 3) _ (open_conn 3) _
            eq_refl _ eq_refl eq_refl eq_refl eq_refl).
  cbn. lia.
Defined.

Lemma Close_failure_keeps_handle_witness :
  exists e st',
    Conn_Close (engine := stuck_engine) (package := sample_package stuck_engine)
      3 (fresh_state 0) = Ret (Some (Some e)) st' /\
    conn st' = Some (open_conn 0) /\
    Conn_IsClosed st' = false.
Proof.
  eexists _, _. split; [reflexivity|].
  destruct (Close_failure_keeps_handle (engine := stuck_engine)
              (package := sample_package stuck_engine)
              3 (fresh_state 0) _ (open_conn 0) _ eq_refl
              (fun s1 H => f_equal conn (eq_sym (f_equal state_of H))) eq_refl)
    as (H1 & H2 & _).
  split; [exact H1 | exact H2].
Defined.

Lemma Close_retries_once_witness :
  close_attempts (calls closed_state) = 2%nat.
Proof.
  exact (Close_retries_once (engine := dangling_engine)
           (package := sample_package dangling_engine)
           1 (fresh_state 0) (fresh_state 0) closed_state (open_conn 0) 1%positive None
           eq_refl eq_refl eq_refl eq_refl eq_refl).
Defined.

Lemma Open_configure_failure_closes_witness :
  exists st3,
    impl_Open (engine := quiet_engine) (package := sample_package quiet_engine)
      failing_configure 0 "file.db" no_conn_state
    = Ret (Some (None, Some (errorString "configuration failed"))) st3 /\
    Conn_IsClosed st3 = true.
Proof.
  destruct (Open_configure_failure_closes (engine := quiet_engine)
              (package := sample_package quiet_engine)
              failing_configure _ 0 "file.db" no_conn_state _ _ _
              (errorString "configuration failed") None
              eq_refl eq_refl eq_refl eq_refl) as (H1 & H2).
  eexists. split; [exact H1|]. apply H2; [reflexivity | discriminate].
Defined.

Lemma BeginTx_nested_rejected_witness :
  conn_BeginTx (engine := busy_commit_engine) (package := sample_package busy_commit_engine)
    None (mkTxOptions LevelDefault false) (fresh_state 1)
  = Ret (None, Some (errorString "Nested transcations are not supported"))
        (set_calls [sqlite3_get_autocommit (Some 1%positive)] (fresh_state 1)).
Proof.
  refine (BeginTx_nested_rejected (engine := busy_commit_engine)
            (package := sample_package busy_commit_engine)
            None (mkTxOptions LevelDefault false) (fresh_state 1) (open_conn 1)
            eq_refl _ eq_refl).
  discriminate.
Defined.

Lemma BeginTx_supported_level_witness :
  exists r st',
    conn_BeginTx (engine := quiet_engine) (package := sample_package quiet_engine)
      None (mkTxOptions LevelReadUncommitted true) (fresh_state 0) = Ret r st' /\
    statements (calls st') =
      ["PRAGMA query_only=true"; "PRAGMA read_uncommitted=1"; "BEGIN"] /\
    (r = (Some the_conn, None) \/ exists e, r = (None, Some e)).
Proof.
  refine (BeginTx_supported_level (engine := quiet_engine)
            (package := sample_package quiet_engine)
            None (mkTxOptions LevelReadUncommitted true) (fresh_state 0) _ (open_conn 0)
            eq_refl _ _ eq_refl eq_refl _).
  - discriminate.
  - discriminate.
  - right. right. reflexivity.
Defined.

Lemma Ping_statement_witness :
  exists err st',
    conn_Ping (engine := quiet_engine) (package := sample_package quiet_engine)
      None (fresh_state 0) = Ret err st' /\
    statements (calls st') = ["PRAGMA schema_verion"].
Proof.
  destruct (Ping_statement (engine := quiet_engine) (package := sample_package quiet_engine)
              None (fresh_state 0) (open_conn 0) eq_refl) as (err & st' & H & Hs & _).
  - discriminate.
  - exists err, st'. split; [exact H | exact Hs].
Defined.

Lemma Next_keeps_dest_length_witness :
  exists dest' st',
    rowsImpl_Next (engine := quiet_engine) (package := row_package)
      (mkRows 0 None (Some 7%nat)) [VNil; VNil; VNil] cancelled_state
    = Ret (dest', None) st' /\
    length dest' = 3%nat.
Proof.
  eexists _, _. split; [reflexivity|].
  exact (proj1 (Next_keeps_dest_length (engine := quiet_engine) (package := row_package)
                  (mkRows 0 None (Some 7%nat)) [VNil; VNil; VNil] _ None cancelled_state _
                  eq_refl)).
Defined.

Lemma Close_statement_then_rows_witness :
  stmt_Close (package := sample_package quiet_engine) 0 rows_open_state
    = Ret None (set_stmts [mkStmt 1%positive true true] rows_open_state) /\
  rowsImpl_Close (package := sample_package quiet_engine) (fun _ => ret None)
    (mkRows 0 None None) (set_stmts [mkStmt 1%positive true true] rows_open_state)
    = Ret None (set_stmts [mkStmt 1%positive false true] rows_open_state).
Proof.
  destruct (Close_statement_then_rows (package := sample_package quiet_engine)
              (fun _ => ret None) 0 (mkStmt 1%positive true false) (mkRows 0 None None)
              rows_open_state eq_refl eq_refl eq_refl) as (H1 & H2 & _).
  split; [exact H1 | exact H2].
Defined.

Lemma Query_once_witness :
  stmt_Query (package := sample_package quiet_engine) 0 [VInt 2]
    (state_of (stmt_Query (package := sample_package quiet_engine) 0 [VInt 1] cancelled_state))
  = Ret (None, Some (errorString "previously returned Rows still not closed"))
        (state_of (stmt_Query (package := sample_package quiet_engine) 0 [VInt 1]
                     cancelled_state)).
Proof.
  exact (proj2 (proj2 (Query_once (package := sample_package quiet_engine)
                         0 [VInt 1] (mkRows 0 None None) cancelled_state _ eq_refl))
           [VInt 2]).
Defined.
